(** * The VM adapters of the Hardhat Network provider

    A shallow embedding of the two [VMAdapter] implementations of
    [hardhat-core/src/internal/hardhat-network/provider/vm]:

    - [EthereumJSAdapter], over the interpreted EVM of ethereumjs, and
    - [RethnetAdapter] (rethnet.ts), over the native EVM of rethnet.

    Both classes are thin layers over libraries that live outside of these
    files (the ethereumjs VM and state manager, the rethnet bindings).  The
    adapters are embedded method by method in a state-and-exception monad;
    the libraries are interfaces (type classes) whose documented contract is
    stated as a separate class of laws, so that every theorem says which
    part of the contract it relies on. *)

From Stdlib Require Import ZArith List String Bool Lia.
From Stdlib.Strings Require Import Byte.
From stdpp Require Import base option gmap strings list.

Local Open Scope string_scope.
Local Open Scope Z_scope.

(** ** Bytes, addresses and accounts *)

#[global] Instance byte_eq_dec : EqDecision byte := Byte.byte_eq_dec.
#[global] Instance byte_countable : Countable byte :=
  inj_countable Byte.to_N Byte.of_N Byte.of_to_N.

(** A Node.js [Buffer]. *)
Definition Buffer := list byte.

(** [Address] of ethereumjs-util: a wrapper around the 20 address bytes. *)
Record Address := { buf : Buffer }.

#[global] Instance Address_eq_dec : EqDecision Address.
Proof. solve_decision. Defined.

#[global] Instance Address_countable : Countable Address :=
  inj_countable' buf Build_Address
    (fun a => match a with Build_Address _ => eq_refl end).

Definition toBuffer (a : Address) : Buffer := buf a.

(** [Account] of ethereumjs-util; [nonce] and [balance] are bigints. *)
Record Account := {
  nonce : Z;
  balance : Z;
  storageRoot : Buffer;
  codeHash : Buffer;
}.

#[global] Instance Account_eq_dec : EqDecision Account.
Proof. solve_decision. Defined.

(** [account.balance += reward] *)
Definition add_balance (account : Account) (reward : Z) : Account :=
  {| nonce := nonce account;
     balance := balance account + reward;
     storageRoot := storageRoot account;
     codeHash := codeHash account |}.

(** ** Exceptions and the adapter monad *)

(** What a method can throw: a plain [new Error(message)], or the
    [HardhatError] raised by [assertHardhatInvariant]. *)
Inductive Exn :=
| Error (message : string)
| HardhatInvariantViolation (message : string).

(** An [async] method of a class whose private state has type [St]: it
    reads and writes the state and either returns or throws.  The state
    that is current at a [throw] is kept, as in JavaScript. *)
Definition M (St A : Type) : Type := St -> (Exn + A) * St.

Section Monad.
Context {St : Type}.

Definition ret {A} (x : A) : M St A := fun s => (inr x, s).

Definition bind {A B} (c : M St A) (k : A -> M St B) : M St B :=
  fun s =>
    match c s with
    | (inl e, s') => (inl e, s')
    | (inr x, s') => k x s'
    end.

Definition throw {A} (e : Exn) : M St A := fun s => (inl e, s).

Definition get : M St St := fun s => (inr s, s).

Definition gets {A} (f : St -> A) : M St A := fun s => (inr (f s), s).

Definition modify (f : St -> St) : M St unit := fun s => (inr tt, f s).

(** [try { body } finally { fin }]: [fin] runs on both exits of [body];
    when [fin] throws, its exception replaces the outcome of [body]. *)
Definition try_finally {A} (body : M St A) (fin : M St unit) : M St A :=
  fun s =>
    let (r, s1) := body s in
    match fin s1 with
    | (inl e, s2) => (inl e, s2)
    | (inr _, s2) => (r, s2)
    end.

(** [try { body } catch (e) { handler(e) }] *)
Definition try_catch {A} (body : M St A) (handler : Exn -> M St A) : M St A :=
  fun s =>
    match body s with
    | (inl e, s') => handler e s'
    | (inr x, s') => (inr x, s')
    end.

(** A call whose caller catches what it throws and goes on. *)
Definition attempt {A} (c : M St A) : M St (Exn + A) :=
  fun s => let (r, s') := c s in (inr r, s').

(** A fallible step that does not touch the state. *)
Definition liftE {A} (r : Exn + A) : M St A := fun s => (r, s).

(** A computation keeps a relation between the state it starts in and the
    state it ends in, on each of its exits. *)
Definition keeps (R : St -> St -> Prop) {A} (c : M St A) : Prop :=
  forall s, R s (snd (c s)).
End Monad.

Notation "'let!' x ':=' c 'in' k" := (bind c (fun x => k))
  (at level 10, x name, c at level 100, k at level 200).
Notation "c ';;;' k" := (bind c (fun _ => k))
  (at level 100, k at level 200, right associativity).

(** A method-local [let] variable of type [L] that is assigned in a [try]
    block and read in its [finally]: the body runs on the pair of the
    object state and the variable. *)
Section Locals.
Context {St L : Type}.

Definition with_local {A} (init : L) (c : M (St * L) A) : M St A :=
  fun s => let (r, sl) := c (s, init) in (r, fst sl).

Definition on_this {A} (c : M St A) : M (St * L) A :=
  fun sl => let (r, s') := c (fst sl) in (r, (s', snd sl)).

Definition get_local : M (St * L) L := gets snd.

Definition set_local (v : L) : M (St * L) unit :=
  modify (fun sl => (fst sl, v)).
End Locals.

(** ** Blocks, transactions, chain configuration *)

(** The header fields the adapters read; numbers are bigints. *)
Record BlockHeader := {
  number : Z;
  coinbase : Address;
  timestamp : Z;
  baseFeePerGas : option Z;
  gasLimit : Z;
  gasUsed : Z;
  difficulty : option Z;
  mixHash : option Buffer;
  stateRoot : Buffer;
}.

Record TypedTransaction := {
  tx_sender : Address;
  tx_to : option Address;
  tx_nonce : Z;
  tx_gasLimit : Z;
  tx_value : Z;
  tx_data : Buffer;
}.

Record Block := {
  header : BlockHeader;
  transactions : list TypedTransaction;
}.

(** [(blockContext.header as any).baseFeePerGas = v] *)
Definition set_baseFeePerGas (b : Block) (v : Z) : Block :=
  let h := header b in
  {| header :=
       {| number := number h; coinbase := coinbase h;
          timestamp := timestamp h; baseFeePerGas := Some v;
          gasLimit := gasLimit h; gasUsed := gasUsed h;
          difficulty := difficulty h; mixHash := mixHash h;
          stateRoot := stateRoot h |};
     transactions := transactions b |}.

(** The part of an ethereumjs [Common] that [Common.custom] is given by
    the adapter.  [chainId] is optional because the adapter can pass its
    optional [_forkNetworkId] there. *)
Record Common := {
  chainId : option Z;
  networkId : Z;
  hardfork : string;
}.

Record ChainParams := { cp_chainId : option Z; cp_networkId : Z }.
Record CustomOpts := { co_hardfork : string }.

(** [Common.custom(chainParams, opts)] *)
Definition Common_custom (p : ChainParams) (o : CustomOpts) : Common :=
  {| chainId := cp_chainId p;
     networkId := cp_networkId p;
     hardfork := co_hardfork o |}.

(** [Block.fromBlockData(block, { freeze: false, common, ... })]: an
    unfrozen copy of the block data.  The library makes the header anew from
    the fields of the header and the transactions anew from theirs; the
    model follows the header only, and nothing below speaks of the
    transactions of a block made this way. *)
Definition Block_fromBlockData (b : Block) (common : Common) : Block :=
  {| header := header b; transactions := transactions b |}.

(** ** Results of the ethereumjs EVM *)

Record EvmError := { error : string }.

(** [ERROR.REVERT] of ethereumjs-evm. *)
Definition ERROR_REVERT : string := "revert".

(** A log, as the tuple [[address, topics, data]]. *)
Definition Log : Type := Buffer * list Buffer * Buffer.

Record ExecResult := {
  exceptionError : option EvmError;
  executionGasUsed : Z;
  returnValue : Buffer;
  gasRefund : option Z;
  (** an object keyed by the hex string of the destroyed address *)
  selfdestruct : option (gmap string Buffer);
  logs : option (list Log);
}.

Record EVMResult := {
  createdAddress : option Address;
  execResult : ExecResult;
}.

Record TxReceipt := {
  cumulativeBlockGasUsed : Z;
  receipt_bitvector : Buffer;
  receipt_logs : list Log;
}.

(** [RunTxResult] of ethereumjs-vm (it extends [EVMResult]). *)
Record VMRunTxResult := {
  evm : EVMResult;
  bloom_bitvector : Buffer;
  totalGasSpent : Z;
  receipt : TxReceipt;
}.

Record RunTxOpts := {
  opt_block : Block;
  opt_tx : TypedTransaction;
  skipNonce : option bool;
  skipBalance : option bool;
  skipBlockGasLimitValidation : option bool;
}.

(** [Bloom] of ../utils/bloom, built from a bit vector. *)
Record Bloom := { bitvector : Buffer }.

(** ** The ethereumjs libraries

    The adapter holds a [VM] and the [StateManager] that the VM was created
    with: [this._stateManager] and the state manager inside [this._vm] are
    one object, so the model keeps a single store, inside the VM.  The
    store is the observable content of the state manager: the getters read
    it, and the setters give the next one or throw. *)

Class StateManager (Store : Type) := {
  sm_getStateRoot : Store -> Buffer;
  (** throws when the store cannot go to that root *)
  sm_setStateRoot : Buffer -> Store -> Exn + Store;
  sm_getAccount : Address -> Store -> Account;
  (** throws when the account cannot be stored, as one with a negative
      balance *)
  sm_putAccount : Address -> Account -> Store -> Exn + Store;
  sm_getContractStorage : Address -> Buffer -> Store -> Buffer;
  sm_putContractStorage : Address -> Buffer -> Buffer -> Store -> Exn + Store;
  sm_getContractCode : Address -> Store -> Buffer;
  sm_putContractCode : Address -> Buffer -> Store -> Exn + Store;
  sm_accountIsEmpty : Address -> Store -> bool;
}.

(** The [VM] object: its private [_common] and its state manager. *)
Record VM (Store : Type) := {
  vm_common : Common;
  vm_stateManager : Store;
}.
Arguments vm_common {Store}.
Arguments vm_stateManager {Store}.

Class EthereumJS (Store : Type) := {
  (** [vm.runTx(opts)]: runs under the VM's current [_common], writes to
      the state manager, and returns a result or throws. *)
  vm_runTx : RunTxOpts -> VM Store -> (Exn + option VMRunTxResult) * VM Store;
  (** [common.hardforkGteHardfork(a, b)] and [common.gteHardfork(b)] *)
  hardforkGteHardfork : Common -> string -> string -> bool;
  gteHardfork_ : Common -> string -> bool;
}.

(** The contract of the state manager that the adapter relies on for
    state roots: the root the store is at can be returned to, also after
    the VM has run, and going to a root makes it the current one. *)
Class StateRootLaws (Store : Type) `{StateManager Store} `{EthereumJS Store} := {
  sm_hasRoot : Store -> Buffer -> Prop;
  hasRoot_getStateRoot : forall s, sm_hasRoot s (sm_getStateRoot s);
  hasRoot_setStateRoot : forall s r,
    sm_hasRoot s r ->
    exists s', sm_setStateRoot r s = inr s' /\ sm_getStateRoot s' = r;
  hasRoot_runTx : forall opts vm r,
    sm_hasRoot (vm_stateManager vm) r ->
    sm_hasRoot (vm_stateManager (snd (vm_runTx opts vm))) r;
}.

(** An account that can be stored: its nonce and its balance are not
    negative. *)
Definition valid_account (acc : Account) : Prop :=
  0 <= nonce acc /\ 0 <= balance acc.

(** The contract of the state manager on accounts: a valid account can be
    put; an account that was put is the one read back, and other
    addresses keep theirs. *)
Class AccountLaws (Store : Type) `{StateManager Store} := {
  putAccount_valid : forall a acc s,
    valid_account acc -> exists s', sm_putAccount a acc s = inr s';
  getAccount_putAccount : forall a acc s s',
    sm_putAccount a acc s = inr s' -> sm_getAccount a s' = acc;
  getAccount_putAccount_ne : forall a b acc s s',
    sm_putAccount a acc s = inr s' ->
    a <> b -> sm_getAccount b s' = sm_getAccount b s;
}.

(** ** Execution results handed to the tracers (types of rethnet-evm) *)

Inductive SuccessReason := Stop | Return | SelfDestruct.

Record ExecutionLog := {
  log_address : Buffer;
  log_topics : list Buffer;
  log_data : Buffer;
}.

Inductive Output :=
| CallOutput (output_returnValue : Buffer)
| CreateOutput (output_address : Buffer) (output_returnValue : Buffer).

Inductive ExecutionResult (ExceptionalHalt : Type) :=
| SuccessResult (reason : SuccessReason) (gasUsed gasRefunded : Z)
    (logs : list ExecutionLog) (output : Output)
| RevertResult (gasUsed : Z) (output : Buffer)
| HaltResult (reason : ExceptionalHalt) (gasUsed : Z).
Arguments SuccessResult {ExceptionalHalt}.
Arguments RevertResult {ExceptionalHalt}.
Arguments HaltResult {ExceptionalHalt}.

(** [TracingMessageResult]: the execution result and its trace, whose
    [steps] the interpreted adapter always leaves empty. *)
Record TracingMessageResult (ExceptionalHalt : Type) := {
  tmr_result : ExecutionResult ExceptionalHalt;
  tmr_trace_steps : list unit;
  tmr_trace_returnValue : Buffer;
}.
Arguments tmr_result {ExceptionalHalt}.

(** [Object.keys(o)] of an object used as a map. *)
Definition Object_keys {V} (o : gmap string V) : list string :=
  (map_to_list o).*1.

(** [RunTxResult] of ./vm-adapter. *)
Record RunTxResult (Exit : Type) := {
  rtr_bloom : Bloom;
  rtr_createdAddress : option Address;
  rtr_gasUsed : Z;
  rtr_returnValue : Buffer;
  rtr_exit : Exit;
  rtr_receipt : TxReceipt;
}.
Arguments rtr_bloom {Exit}.
Arguments rtr_createdAddress {Exit}.
Arguments rtr_gasUsed {Exit}.
Arguments rtr_returnValue {Exit}.
Arguments rtr_exit {Exit}.
Arguments rtr_receipt {Exit}.

(** The repository's own collaborators of the adapters that are used
    through their interface only: the [Exit] class of ./exit and the two
    tracers of ../../stack-traces. *)
Class Collaborators := {
  Exit : Type;
  ExceptionalHalt : Type;
  fromEthereumJSEvmError : option EvmError -> Exn + Exit;
  getRethnetExceptionalHalt : Exit -> Exn + ExceptionalHalt;
  VMTracer : Type;
  VMDebugTracer : Type;
  vmTracer_addAfterMessage :
    TracingMessageResult ExceptionalHalt -> VMTracer -> Exn + VMTracer;
  vmDebugTracer_addAfterMessage :
    TracingMessageResult ExceptionalHalt -> VMDebugTracer -> Exn + VMDebugTracer;
}.

(** The part of [NodeConfig] (../node-types) that [create] reads. *)
Record NodeConfig (ForkConfig GenesisAccounts : Type) := {
  cfg_networkId : Z;
  cfg_chainId : Z;
  cfg_hardfork : string;
  cfg_forkConfig : option ForkConfig;
  cfg_forkCachePath : option string;
  cfg_genesisAccounts : GenesisAccounts;
  cfg_allowUnlimitedContractSize : option bool;
}.
Arguments cfg_networkId {ForkConfig GenesisAccounts}.
Arguments cfg_chainId {ForkConfig GenesisAccounts}.
Arguments cfg_hardfork {ForkConfig GenesisAccounts}.
Arguments cfg_forkConfig {ForkConfig GenesisAccounts}.
Arguments cfg_forkCachePath {ForkConfig GenesisAccounts}.
Arguments cfg_genesisAccounts {ForkConfig GenesisAccounts}.
Arguments cfg_allowUnlimitedContractSize {ForkConfig GenesisAccounts}.

(** What [EthereumJSAdapter.create] calls to set a node up: the fork
    client (its network id and the fork block number), the two kinds of
    state manager with their genesis accounts, and the tracer. *)
Class NodeSetup (Store : Type) `{Collaborators} := {
  ForkConfig : Type;
  GenesisAccounts : Type;
  makeForkClient : ForkConfig -> option string -> Exn + Z * Z;
  ForkStateManager_new : ForkConfig -> Z -> GenesisAccounts -> Exn + Store;
  DefaultStateManager_new : GenesisAccounts -> Exn + Store;
  VMTracer_new : Common -> bool -> VMTracer;
}.

(** The fork-aware state manager of ../fork/ForkStateManager: whether the
    state manager of the adapter is one (the class of the object, which
    never changes), and the two methods that only it has. *)
Class ForkAware (Store : Type) := {
  instanceof_ForkStateManager : bool;
  fsm_restoreForkBlockContext : Buffer -> Store -> Exn + Store;
  fsm_setBlockContext : Buffer -> Z -> option Buffer -> Store -> Exn + Store;
}.

(** A step of the interpreter, as the [step] event of the EVM gives it. *)
Record Opcode := {
  op_name : string;
  op_fee : Z;
  op_dynamicFee : option Z;
}.

Record InterpreterStep := {
  step_depth : Z;
  step_pc : Z;
  step_opcode : Opcode;
  step_gasRefund : Z;
  step_gasLeft : Z;
  step_stack : list Z;
  step_memory : Buffer;
  step_account : Account;
  step_address : Address;
}.

(** The summary of the running contract inside a tracing step. *)
Record ContractSummary := {
  cs_balance : Z;
  cs_nonce : Z;
  cs_codeHash : Buffer;
}.

Record TracingStep := {
  ts_depth : Z;
  ts_pc : Z;
  ts_opcode : string;
  ts_gasCost : Z;
  ts_gasRefunded : Z;
  ts_gasLeft : Z;
  ts_stack : list Z;
  ts_memory : Buffer;
  ts_contract : ContractSummary;
  ts_contractAddress : Buffer;
}.

(** The message that [_beforeMessageHandler] gives to the tracers: the
    fields of the EVM's message, with [to], [codeAddress] and [code]
    replaced. *)
Record TracingMessage (Message : Type) := {
  tm_message : Message;
  tm_to : option Buffer;
  tm_codeAddress : option Buffer;
  tm_code : option Buffer;
}.
Arguments tm_message {Message}.
Arguments tm_to {Message}.
Arguments tm_codeAddress {Message}.
Arguments tm_code {Message}.

(** The [Message] of the EVM, of which the adapter reads [to] and the
    [codeAddress] getter, and the tracer methods for the two other
    events. *)
Class EVMEvents `{Collaborators} := {
  Message : Type;
  message_to : Message -> option Address;
  message_codeAddress : Message -> Exn + Address;
  vmTracer_addBeforeMessage :
    TracingMessage Message -> VMTracer -> Exn + VMTracer;
  vmDebugTracer_addBeforeMessage :
    TracingMessage Message -> VMDebugTracer -> Exn + VMDebugTracer;
  vmTracer_addStep : TracingStep -> VMTracer -> Exn + VMTracer;
  vmDebugTracer_addStep : TracingStep -> VMDebugTracer -> Exn + VMDebugTracer;
}.

(** ** EthereumJSAdapter *)

Inductive BlockNumberOrPending := BlockNumber (n : Z) | Pending.

Module EthereumJSAdapter.
Section Adapter.
Context {Store : Type} `{SM : StateManager Store} `{EJS : EthereumJS Store}.
Context `{Co : Collaborators}.

(** The fields of the class.  The constructor parameters are read-only;
    [_blockStartStateRoot], the tracers and the content of [_vm] change.
    The listeners that the constructor registers on the EVM are embedded
    on their own ([_afterMessageHandler]); the calls the VM makes to them
    while it runs are not part of [vm_runTx]. *)
Record state := {
  _blockStartStateRoot : option Buffer;
  _vmTracer : VMTracer;
  _vmDebugTracer : option VMDebugTracer;
  _vm : VM Store;
  _common : Common;
  _configNetworkId : Z;
  _configChainId : Z;
  _selectHardfork : Z -> string;
  _forkNetworkId : option Z;
  _forkBlockNumber : option Z;
}.

(** [EthereumJSAdapter.create]: a forked configuration gives a fork state
    manager and sets both fork fields; any other one sets neither. *)
Definition create `{!NodeSetup Store} (common : Common)
    (config : NodeConfig ForkConfig GenesisAccounts)
    (selectHardfork : Z -> string) : Exn + state :=
  match
    match cfg_forkConfig config with
    | Some forkConfig =>
        match makeForkClient forkConfig (cfg_forkCachePath config) with
        | inl e => inl e
        | inr (forkNetworkId, forkBlockNumber) =>
            match ForkStateManager_new forkConfig forkBlockNumber
                    (cfg_genesisAccounts config) with
            | inl e => inl e
            | inr stateManager =>
                inr (stateManager, Some forkNetworkId, Some forkBlockNumber)
            end
        end
    | None =>
        match DefaultStateManager_new (cfg_genesisAccounts config) with
        | inl e => inl e
        | inr stateManager => inr (stateManager, None, None)
        end
    end
  with
  | inl e => inl e
  | inr (stateManager, forkNetworkId, forkBlockNum) =>
      inr {| _blockStartStateRoot := None;
             _vmTracer := VMTracer_new common false;
             _vmDebugTracer := None;
             _vm := {| vm_common := common;
                       vm_stateManager := stateManager |};
             _common := common;
             _configNetworkId := cfg_networkId config;
             _configChainId := cfg_chainId config;
             _selectHardfork := selectHardfork;
             _forkNetworkId := forkNetworkId;
             _forkBlockNumber := forkBlockNum |}
  end.

(** What [create] establishes: the fork network id and the fork block
    number are both there (a forked node) or both absent. *)
Definition created (this : state) : Prop :=
  _forkNetworkId this = None <-> _forkBlockNumber this = None.

Definition forked (this : state) : Prop := _forkBlockNumber this <> None.

(** A frame "self-destructed at least one account" when its
    [selfdestruct] object is there and has a key. *)
Definition selfdestructed (result : EVMResult) : Prop :=
  exists sd a v,
    selfdestruct (execResult result) = Some sd /\ sd !! a = Some v.

(** [this._stateManager]: the state manager object inside [this._vm]. *)
Definition _stateManager (this : state) : Store :=
  vm_stateManager (_vm this).

Definition set_vm (this : state) (vm : VM Store) :=
  {| _blockStartStateRoot := _blockStartStateRoot this;
     _vmTracer := _vmTracer this; _vmDebugTracer := _vmDebugTracer this;
     _vm := vm; _common := _common this;
     _configNetworkId := _configNetworkId this;
     _configChainId := _configChainId this;
     _selectHardfork := _selectHardfork this;
     _forkNetworkId := _forkNetworkId this;
     _forkBlockNumber := _forkBlockNumber this |}.

Definition set_blockStartStateRoot (this : state)
    (v : option Buffer) :=
  {| _blockStartStateRoot := v;
     _vmTracer := _vmTracer this; _vmDebugTracer := _vmDebugTracer this;
     _vm := _vm this; _common := _common this;
     _configNetworkId := _configNetworkId this;
     _configChainId := _configChainId this;
     _selectHardfork := _selectHardfork this;
     _forkNetworkId := _forkNetworkId this;
     _forkBlockNumber := _forkBlockNumber this |}.

Definition set_tracers (this : state)
    (t : VMTracer) (d : option VMDebugTracer) :=
  {| _blockStartStateRoot := _blockStartStateRoot this;
     _vmTracer := t; _vmDebugTracer := d;
     _vm := _vm this; _common := _common this;
     _configNetworkId := _configNetworkId this;
     _configChainId := _configChainId this;
     _selectHardfork := _selectHardfork this;
     _forkNetworkId := _forkNetworkId this;
     _forkBlockNumber := _forkBlockNumber this |}.

Definition set_stateManager (this : state) (s : Store) :=
  set_vm this {| vm_common := vm_common (_vm this); vm_stateManager := s |}.

(** [(this._vm as any)._common = c] *)
Definition set_vm_common (c : Common) : M state unit :=
  modify (fun this =>
    set_vm this {| vm_common := c;
                   vm_stateManager := vm_stateManager (_vm this) |}).

(** [this._stateManager.setStateRoot(root)] *)
Definition stateManager_setStateRoot (root : Buffer)
  : M state unit :=
  fun this =>
    match sm_setStateRoot root (_stateManager this) with
    | inl e => (inl e, this)
    | inr s' => (inr tt, set_stateManager this s')
    end.

(** [this._vm.runTx(opts)], as far as the VM and its state manager go.
    The events that a run fires, and what the listeners of the adapter
    then write to the tracers, are not part of this model of a run: the
    listeners are modelled on their own below, and no property speaks of
    the tracers across a run. *)
Definition vm_runTx_ (opts : RunTxOpts)
  : M state (option VMRunTxResult) :=
  fun this => let (r, vm') := vm_runTx opts (_vm this) in (r, set_vm this vm').

Definition getStateRoot : M state Buffer :=
  gets (fun this => sm_getStateRoot (_stateManager this)).

Definition getAccount (address : Address) : M state Account :=
  gets (fun this => sm_getAccount address (_stateManager this)).

Definition getContractStorage (address : Address) (key : Buffer)
  : M state Buffer :=
  gets (fun this => sm_getContractStorage address key (_stateManager this)).

Definition getContractCode (address : Address) : M state Buffer :=
  gets (fun this => sm_getContractCode address (_stateManager this)).

(** A setter of [this._stateManager]. *)
Definition stateManager_put (f : Store -> Exn + Store) : M state unit :=
  fun this =>
    match f (_stateManager this) with
    | inl e => (inl e, this)
    | inr s' => (inr tt, set_stateManager this s')
    end.

Definition putAccount (address : Address) (account : Account)
  : M state unit :=
  stateManager_put (sm_putAccount address account).

Definition putContractCode (address : Address) (value : Buffer)
  : M state unit :=
  stateManager_put (sm_putContractCode address value).

Definition putContractStorage (address : Address) (key value : Buffer)
  : M state unit :=
  stateManager_put (sm_putContractStorage address key value).

Definition _isEip1559Active (this : state)
    (blockNumberOrPending : option BlockNumberOrPending) : bool :=
  match blockNumberOrPending with
  | Some (BlockNumber n) =>
      hardforkGteHardfork (_common this) (_selectHardfork this n) "london"
  | _ => gteHardfork_ (_common this) "london"
  end.

(** The [RunTxResult] literal that [dryRun] and [runTxInBlock] both build
    from the result of [vm.runTx]. *)
Definition toRunTxResult (ethereumJSResult : VMRunTxResult)
  : Exn + RunTxResult Exit :=
  let ethereumJSError := exceptionError (execResult (evm ethereumJSResult)) in
  match fromEthereumJSEvmError ethereumJSError with
  | inl e => inl e
  | inr x =>
      inr {| rtr_bloom := {| bitvector := bloom_bitvector ethereumJSResult |};
             rtr_gasUsed := totalGasSpent ethereumJSResult;
             rtr_receipt := receipt ethereumJSResult;
             rtr_returnValue := returnValue (execResult (evm ethereumJSResult));
             rtr_createdAddress := createdAddress (evm ethereumJSResult);
             rtr_exit := x |}
  end.

(** The block [dryRun] executes against. *)
Definition dryRun_block (this : state) (blockContext : Block)
    (forceBaseFeeZero : bool) : Block :=
  if _isEip1559Active this (Some (BlockNumber (number (header blockContext))))
     && (bool_decide (baseFeePerGas (header blockContext) = None)
         || forceBaseFeeZero)
  then set_baseFeePerGas (Block_fromBlockData blockContext (_common this)) 0
  else blockContext.

(** The [Common.custom(...)] that [dryRun] installs in the VM. *)
Definition dryRun_common (this : state) (blockContext : Block)
  : Common :=
  Common_custom
    {| cp_chainId :=
         if match _forkBlockNumber this with
            | None => true
            | Some forkBlockNumber =>
                number (header blockContext) >=? forkBlockNumber
            end
         then Some (_configChainId this)
         else _forkNetworkId this;
       cp_networkId := default (_configNetworkId this) (_forkNetworkId this) |}
    {| co_hardfork := _selectHardfork this (number (header blockContext)) |}.

Definition dryRun (tx : TypedTransaction) (blockContext : Block)
    (forceBaseFeeZero : option bool) : M state (RunTxResult Exit) :=
  let forceBaseFeeZero := default false forceBaseFeeZero in
  let! initialStateRoot := getStateRoot in
  with_local (None : option Common)
    (try_finally
       (let! this := on_this get in
        let blockContext := dryRun_block this blockContext forceBaseFeeZero in
        set_local (Some (vm_common (_vm this))) ;;;
        on_this (set_vm_common (dryRun_common this blockContext)) ;;;
        let! ethereumJSResult :=
          on_this (vm_runTx_ {| opt_block := blockContext; opt_tx := tx;
                                skipNonce := Some true;
                                skipBalance := Some true;
                                skipBlockGasLimitValidation := Some true |}) in
        (* assertHardhatInvariant(ethereumJSResult !== undefined, ...) *)
        match ethereumJSResult with
        | None => throw (HardhatInvariantViolation "Should have a result")
        | Some ethereumJSResult => liftE (toRunTxResult ethereumJSResult)
        end)
       (let! originalCommon := get_local in
        match originalCommon with
        | Some c => on_this (set_vm_common c)
        | None => ret tt
        end ;;;
        on_this (stateManager_setStateRoot initialStateRoot))).

(** The two exits of [dryRun], given what [vm.runTx] did: the result is
    built, or the exception passes; then the [finally] block puts the
    VM's [_common] back and sets the state root, whose failure replaces
    the outcome. *)
Definition dryRun_exit (this : state) (initialStateRoot : Buffer)
    (r : Exn + option VMRunTxResult) (vm' : VM Store)
  : (Exn + RunTxResult Exit) * state :=
  match sm_setStateRoot initialStateRoot (vm_stateManager vm') with
  | inl e =>
      (inl e,
       set_vm this {| vm_common := vm_common (_vm this);
                      vm_stateManager := vm_stateManager vm' |})
  | inr s' =>
      (match r with
       | inl e => inl e
       | inr None => inl (HardhatInvariantViolation "Should have a result")
       | inr (Some x) => toRunTxResult x
       end,
       set_vm this {| vm_common := vm_common (_vm this);
                      vm_stateManager := s' |})
  end.

Definition startBlock : M state unit :=
  let! this := get in
  match _blockStartStateRoot this with
  | Some _ => throw (Error "a block is already started")
  | None =>
      let! root := getStateRoot in
      modify (fun this => set_blockStartStateRoot this (Some root))
  end.

Definition runTxInBlock (tx : TypedTransaction) (block : Block)
  : M state (RunTxResult Exit) :=
  let! ethereumJSResult :=
    vm_runTx_ {| opt_block := block; opt_tx := tx; skipNonce := None;
                 skipBalance := None;
                 skipBlockGasLimitValidation := None |} in
  (* assertHardhatInvariant(ethereumJSResult !== undefined, ...) *)
  match ethereumJSResult with
  | None => throw (HardhatInvariantViolation "Should have a result")
  | Some ethereumJSResult => liftE (toRunTxResult ethereumJSResult)
  end.

Fixpoint addBlockRewards (rewards : list (Address * Z))
  : M state unit :=
  match rewards with
  | [] => ret tt
  | (address, reward) :: rewards =>
      let! account := getAccount address in
      let account := add_balance account reward in
      putAccount address account ;;;
      addBlockRewards rewards
  end.

(** The [runTxInBlock] calls of one block, in order.  Each call returns
    or throws; the caller goes on with the next one either way. *)
Fixpoint runTxsInBlock (txs : list (TypedTransaction * Block))
  : M state (list (Exn + RunTxResult Exit)) :=
  match txs with
  | [] => ret []
  | (tx, block) :: txs =>
      let! r := attempt (runTxInBlock tx block) in
      let! rs := runTxsInBlock txs in
      ret (r :: rs)
  end.

(** The VM that the in-block transactions leave: the backend run on each
    of them in turn, and nothing else. *)
Definition vm_after (txs : list (TypedTransaction * Block)) (vm : VM Store)
  : VM Store :=
  foldl (fun vm '(tx, block) =>
           snd (vm_runTx {| opt_block := block; opt_tx := tx;
                            skipNonce := None; skipBalance := None;
                            skipBlockGasLimitValidation := None |} vm))
        vm txs.

(** The accounts of a store are valid: what the state manager gives for
    any address has a nonce and a balance that are not negative. *)
Definition valid_accounts (s : Store) : Prop :=
  forall a, valid_account (sm_getAccount a s).

(** The sum of the rewards that a list gives to one address. *)
Fixpoint total_reward (a : Address) (rewards : list (Address * Z)) : Z :=
  match rewards with
  | [] => 0
  | (address, reward) :: rewards =>
      (if decide (address = a) then reward else 0) + total_reward a rewards
  end.

Definition sealBlock : M state unit :=
  let! this := get in
  match _blockStartStateRoot this with
  | None => throw (Error "Cannot seal a block that wasn't started")
  | Some _ => modify (fun this => set_blockStartStateRoot this None)
  end.

Definition revertBlock : M state unit :=
  let! this := get in
  match _blockStartStateRoot this with
  | None => throw (Error "Cannot revert a block that wasn't started")
  | Some root =>
      stateManager_setStateRoot root ;;;
      modify (fun this => set_blockStartStateRoot this None)
  end.

Definition makeSnapshot : M state Buffer := getStateRoot.

Definition selectHardfork (blockNumber : Z) : M state string :=
  gets (fun this => _selectHardfork this blockNumber).

Definition setDebugTracer (debugTracer : VMDebugTracer)
  : M state unit :=
  modify (fun this => set_tracers this (_vmTracer this) (Some debugTracer)).

Definition removeDebugTracer : M state unit :=
  modify (fun this => set_tracers this (_vmTracer this) None).

(** The [executionResult] that [_afterMessageHandler] computes from the
    result of a message. *)
Definition afterMessage_executionResult (result : EVMResult)
  : Exn + ExecutionResult ExceptionalHalt :=
  let gasUsed := executionGasUsed (execResult result) in
  match exceptionError (execResult result) with
  | None =>
      let reason :=
        if match selfdestruct (execResult result) with
           | Some sd => (0 <? length (Object_keys sd))%nat
           | None => false
           end
        then SelfDestruct
        else if bool_decide (createdAddress result <> None)
                || (0 <? length (returnValue (execResult result)))%nat
        then Return
        else Stop in
      inr (SuccessResult reason gasUsed
             (default 0 (gasRefund (execResult result)))
             (default []
                ((fun l : list Log =>
                   (fun log : Log =>
                    {| log_address := log.1.1; log_topics := log.1.2;
                       log_data := log.2 |}) <$> l) <$>
                 logs (execResult result)))
             (match createdAddress result with
              | None => CallOutput (returnValue (execResult result))
              | Some a =>
                  CreateOutput (toBuffer a) (returnValue (execResult result))
              end))
  | Some exceptionError =>
      if String.eqb (error exceptionError) ERROR_REVERT
      then inr (RevertResult gasUsed (returnValue (execResult result)))
      else
        match fromEthereumJSEvmError (Some exceptionError) with
        | inl e => inl e
        | inr vmError =>
            match getRethnetExceptionalHalt vmError with
            | inl e => inl e
            | inr reason => inr (HaltResult reason gasUsed)
            end
        end
  end.

(** [this._vmTracer.addAfterMessage(m)] *)
Definition addAfterMessage_vmTracer
    (m : TracingMessageResult ExceptionalHalt) : M state unit :=
  fun this =>
    match vmTracer_addAfterMessage m (_vmTracer this) with
    | inl e => (inl e, this)
    | inr t => (inr tt, set_tracers this t (_vmDebugTracer this))
    end.

(** [if (this._vmDebugTracer !== undefined)
       this._vmDebugTracer.addAfterMessage(m)] *)
Definition addAfterMessage_vmDebugTracer
    (m : TracingMessageResult ExceptionalHalt) : M state unit :=
  fun this =>
    match _vmDebugTracer this with
    | None => (inr tt, this)
    | Some d =>
        match vmDebugTracer_addAfterMessage m d with
        | inl e => (inl e, this)
        | inr d' => (inr tt, set_tracers this (_vmTracer this) (Some d'))
        end
    end.

(** The [afterMessage] listener.  It returns what it hands to the
    continuation [next] of the EVM: nothing, or the exception caught. *)
Definition _afterMessageHandler (result : EVMResult)
  : M state (option Exn) :=
  try_catch
    (let! executionResult := liftE (afterMessage_executionResult result) in
     let afterMessage :=
       {| tmr_result := executionResult;
          tmr_trace_steps := [];
          tmr_trace_returnValue := returnValue (execResult result) |} in
     addAfterMessage_vmTracer afterMessage ;;;
     addAfterMessage_vmDebugTracer afterMessage ;;;
     ret None)
    (fun e => ret (Some e)).

(** [restoreContext]: the fork-aware state manager restores its fork block
    context; any other one sets the state root. *)
Definition restoreContext `{!ForkAware Store} (stateRoot : Buffer)
  : M state unit :=
  fun this =>
    if instanceof_ForkStateManager then
      match fsm_restoreForkBlockContext stateRoot (_stateManager this) with
      | inl e => (inl e, this)
      | inr s' => (inr tt, set_stateManager this s')
      end
    else stateManager_setStateRoot stateRoot this.

Definition setBlockContext `{!ForkAware Store} (block : Block)
    (irregularStateOrUndefined : option Buffer) : M state unit :=
  fun this =>
    if instanceof_ForkStateManager then
      match fsm_setBlockContext (stateRoot (header block))
              (number (header block)) irregularStateOrUndefined
              (_stateManager this) with
      | inl e => (inl e, this)
      | inr s' => (inr tt, set_stateManager this s')
      end
    else
      stateManager_setStateRoot
        (default (stateRoot (header block)) irregularStateOrUndefined) this.

(** A call of a method of [this._vmTracer]. *)
Definition on_vmTracer (f : VMTracer -> Exn + VMTracer) : M state unit :=
  fun this =>
    match f (_vmTracer this) with
    | inl e => (inl e, this)
    | inr t => (inr tt, set_tracers this t (_vmDebugTracer this))
    end.

(** [if (this._vmDebugTracer !== undefined) this._vmDebugTracer.m(...)] *)
Definition on_vmDebugTracer (f : VMDebugTracer -> Exn + VMDebugTracer)
  : M state unit :=
  fun this =>
    match _vmDebugTracer this with
    | None => (inr tt, this)
    | Some d =>
        match f d with
        | inl e => (inl e, this)
        | inr d' => (inr tt, set_tracers this (_vmTracer this) (Some d'))
        end
    end.

(** The [beforeMessage] listener.  Like the two others it returns what it
    hands to the continuation [next]. *)
Definition _beforeMessageHandler `{!EVMEvents} (message : Message)
  : M state (option Exn) :=
  try_catch
    (let! code :=
       match message_to message with
       | Some _ =>
           let! codeAddress := liftE (message_codeAddress message) in
           let! code := getContractCode codeAddress in
           ret (Some code)
       | None => ret None
       end in
     let! codeAddress :=
       match message_to message with
       | Some _ =>
           let! codeAddress := liftE (message_codeAddress message) in
           ret (Some (toBuffer codeAddress))
       | None => ret None
       end in
     let beforeMessage :=
       {| tm_message := message;
          tm_to := toBuffer <$> message_to message;
          tm_codeAddress := codeAddress;
          tm_code := code |} in
     on_vmTracer (vmTracer_addBeforeMessage beforeMessage) ;;;
     on_vmDebugTracer (vmDebugTracer_addBeforeMessage beforeMessage) ;;;
     ret None)
    (fun e => ret (Some e)).

(** The step that [_stepHandler] gives to the tracers. *)
Definition tracingStep_of (step : InterpreterStep) : TracingStep :=
  {| ts_depth := step_depth step;
     ts_pc := step_pc step;
     ts_opcode := op_name (step_opcode step);
     ts_gasCost :=
       op_fee (step_opcode step) + default 0 (op_dynamicFee (step_opcode step));
     ts_gasRefunded := step_gasRefund step;
     ts_gasLeft := step_gasLeft step;
     ts_stack := step_stack step;
     ts_memory := step_memory step;
     ts_contract :=
       {| cs_balance := balance (step_account step);
          cs_nonce := nonce (step_account step);
          cs_codeHash := codeHash (step_account step) |};
     ts_contractAddress := buf (step_address step) |}.

(** The [step] listener. *)
Definition _stepHandler `{!EVMEvents} (step : InterpreterStep)
  : M state (option Exn) :=
  try_catch
    (let tracingStep := tracingStep_of step in
     on_vmTracer (vmTracer_addStep tracingStep) ;;;
     on_vmDebugTracer (vmDebugTracer_addStep tracingStep) ;;;
     ret None)
    (fun e => ret (Some e)).

(** What no method other than the block cycle, the tracer setters and the
    writes to the VM changes: the fields given to the constructor. *)
Definition same_configuration (this this' : state) : Prop :=
  _common this' = _common this
  /\ _configNetworkId this' = _configNetworkId this
  /\ _configChainId this' = _configChainId this
  /\ _selectHardfork this' = _selectHardfork this
  /\ _forkNetworkId this' = _forkNetworkId this
  /\ _forkBlockNumber this' = _forkBlockNumber this.

(** The tracers aside, the adapter is the same. *)
Definition tracers_only (this this' : state) : Prop :=
  _vm this' = _vm this
  /\ _blockStartStateRoot this' = _blockStartStateRoot this
  /\ same_configuration this this'.

(** What a listener leaves as it is: all but the content of the tracers,
    and whether a debug tracer is attached. *)
Definition listener_frame (this this' : state) : Prop :=
  tracers_only this this'
  /\ (_vmDebugTracer this' = None <-> _vmDebugTracer this = None).
End Adapter.
End EthereumJSAdapter.

(** ** The rethnet bindings and the repository's glue around them *)

(** The block environment given to [Rethnet.guaranteedDryRun]. *)
Record BlockConfig := {
  bc_number : Z;
  bc_coinbase : Buffer;
  bc_timestamp : Z;
  bc_basefee : option Z;
  bc_gasLimit : Z;
  bc_difficulty : option Z;
  bc_prevrandao : option Buffer;
}.

(** The header options given to [BlockBuilder.new]. *)
Record BlockHeaderOptions := {
  bh_parentHash : Buffer;
  bh_ommersHash : Buffer;
  bh_beneficiary : Buffer;
  bh_stateRoot : Buffer;
  bh_transactionsRoot : Buffer;
  bh_receiptsRoot : Buffer;
  bh_logsBloom : Buffer;
  bh_difficulty : Z;
  bh_number : Z;
  bh_gasLimit : Z;
  bh_gasUsed : Z;
  bh_timestamp : Z;
  bh_extraData : Buffer;
  bh_mixHash : Buffer;
  bh_nonce : Z;
}.

(** [Buffer.alloc(size, fill)] *)
Definition Buffer_alloc (size : nat) (fill : byte) : Buffer := repeat fill size.

(** What [RethnetAdapter] calls outside of rethnet.ts: the state manager
    of ../RethnetState, the [Rethnet] and [BlockBuilder] objects of
    rethnet-evm (all of them work on the one state), the conversions of
    ../utils/convertToRethnet and the hardfork order of util/hardforks.
    [rethnet_guaranteedDryRun] gives the [execResult] of the result of
    [guaranteedDryRun], which is all [dryRun] reads of it; the [Tracer]
    that both runs are given forwards to the tracers of the adapter and
    is left out, as no write to the state goes through it. *)
Class RethnetLib (RState : Type) := {
  RethnetTx : Type;
  RethnetExecResult : Type;
  rs_getStateRoot : RState -> Buffer;
  rs_setStateRoot : Buffer -> RState -> Exn + RState;
  rs_checkpoint : RState -> Exn + RState;
  rs_revert : RState -> Exn + RState;
  rs_makeSnapshot : RState -> Buffer * RState;
  rs_getAccount : Address -> RState -> Account;
  rs_putAccount : Address -> Account -> RState -> Exn + RState;
  rethnet_guaranteedDryRun :
    RethnetTx -> BlockConfig -> RState -> (Exn + RethnetExecResult) * RState;
  rethnet_run :
    RethnetTx -> BlockConfig -> RState -> (Exn + RethnetExecResult) * RState;
  blockBuilder_finalize :
    BlockHeaderOptions -> list (Buffer * Z) -> RState -> (Exn + unit) * RState;
  ethereumjsTransactionToRethnet : TypedTransaction -> Exn + RethnetTx;
  ethereumjsHeaderDataToRethnet :
    BlockHeader -> option Z -> option Buffer -> BlockConfig;
  rethnetResultToRunTxResult `{Collaborators} :
    RethnetExecResult -> Z -> Exn + RunTxResult Exit;
  hardforkGte : string -> string -> bool;
  HardforkName_MERGE : string;
}.

(** The sum of the rewards that a list gives to the bytes of one
    address. *)
Fixpoint total_credit (b : Buffer) (rewards : list (Buffer * Z)) : Z :=
  match rewards with
  | [] => 0
  | (address, reward) :: rewards =>
      (if decide (address = b) then reward else 0) + total_credit b rewards
  end.

(** Modelled from the spec: [BlockBuilder.finalize] of rethnet-evm, whose
    code is not in these files.  The spec has this step of the block cycle
    as "credit each (address, reward) to balance" and asks that "rewards
    must credit even accounts that do not yet exist": for rewards that are
    not negative [finalize] returns, whatever the header of the builder is,
    and the account of every address is afterwards the one it was with the
    rewards of that address added to its balance. *)
Class BlockBuilderLaws (RState : Type) `{RethnetLib RState} := {
  finalize_returns : forall h rewards s,
    Forall (fun br : Buffer * Z => 0 <= br.2) rewards ->
    fst (blockBuilder_finalize h rewards s) = inr tt;
  finalize_credits : forall h rewards s a,
    Forall (fun br : Buffer * Z => 0 <= br.2) rewards ->
    rs_getAccount a (snd (blockBuilder_finalize h rewards s))
    = add_balance (rs_getAccount a s) (total_credit (buf a) rewards);
}.

(** Modelled from the spec: [Rethnet.guaranteedDryRun] of rethnet-evm,
    whose code is not in these files.  The spec has a dry run as an
    "execution whose side effects are discarded", run "without mutating
    committed state": the state root of the state it ran on is afterwards
    the one it was, whether it returns or throws. *)
Class GuaranteedDryRunLaws (RState : Type) `{RethnetLib RState} := {
  guaranteedDryRun_stateRoot : forall rtx env s,
    rs_getStateRoot (snd (rethnet_guaranteedDryRun rtx env s))
    = rs_getStateRoot s;
}.

(** The options given to [new Rethnet(...)]. *)
Record ConfigOptions (SpecId : Type) := {
  ro_chainId : Z;
  ro_specId : SpecId;
  ro_limitContractCodeSize : option Z;
  ro_disableBlockGasLimit : option bool;
  ro_disableEip3607 : option bool;
}.
Arguments ro_chainId {SpecId}.
Arguments ro_specId {SpecId}.
Arguments ro_limitContractCodeSize {SpecId}.
Arguments ro_disableBlockGasLimit {SpecId}.
Arguments ro_disableEip3607 {SpecId}.

(** What [RethnetAdapter.create] calls: the state manager with its genesis
    accounts, the conversion of the hardfork name, and the constructor of
    [Rethnet], which is given the block hash function (inside a
    [Blockchain]), the state and the options. *)
Class RethnetSetup (RState : Type) := {
  SpecId : Type;
  RethnetGenesisAccounts : Type;
  GetBlockHash : Type;
  ethereumsjsHardforkToRethnet : string -> Exn + SpecId;
  RethnetStateManager_withGenesisAccounts :
    RethnetGenesisAccounts -> Exn + RState;
  Rethnet_new : GetBlockHash -> RState -> ConfigOptions SpecId -> Exn + RState;
}.

(** ** RethnetAdapter (rethnet.ts) *)

Module RethnetAdapter.
Section Adapter.
Context {RState : Type} `{Co : Collaborators} `{RL : RethnetLib RState}.

Record state := {
  _state : RState;
  _selectHardfork : Z -> string;
  _common : Common;
}.

Definition set_state (this : state) (s : RState) :=
  {| _state := s; _selectHardfork := _selectHardfork this;
     _common := _common this |}.

(** A call of a library method that works on [this._state]. *)
Definition on_state {A} (f : RState -> (Exn + A) * RState) : M state A :=
  fun this => let (r, s') := f (_state this) in (r, set_state this s').

Definition on_state_ (f : RState -> Exn + RState) : M state unit :=
  fun this =>
    match f (_state this) with
    | inl e => (inl e, this)
    | inr s' => (inr tt, set_state this s')
    end.

(** The difficulty is clamped; the [console.debug] line of the clamped
    case is not part of the model. *)
Definition _getBlockEnvDifficulty (difficulty : option Z) : option Z :=
  let MAX_DIFFICULTY := 2 ^ 32 - 1 in
  match difficulty with
  | Some d => if d >? MAX_DIFFICULTY then Some MAX_DIFFICULTY else difficulty
  | None => difficulty
  end.

Definition _getBlockPrevRandao (this : state) (blockNumber : Z)
    (mixHash : option Buffer) : Exn + option Buffer :=
  let hardfork := _selectHardfork this blockNumber in
  let isPostMergeHardfork := hardforkGte hardfork HardforkName_MERGE in
  if isPostMergeHardfork then
    match mixHash with
    | None => inl (Error "mixHash must be set for post-merge hardfork")
    | Some mixHash => inr (Some mixHash)
    end
  else inr None.

(** The block environment that [dryRun] gives to the backend. *)
Definition dryRun_blockConfig (blockContext : Block)
    (forceBaseFeeZero : option bool) (difficulty : option Z)
    (prevRandao : option Buffer) : BlockConfig :=
  {| bc_number := number (header blockContext);
     bc_coinbase := buf (coinbase (header blockContext));
     bc_timestamp := timestamp (header blockContext);
     bc_basefee :=
       if bool_decide (forceBaseFeeZero = Some true) then Some 0
       else baseFeePerGas (header blockContext);
     bc_gasLimit := gasLimit (header blockContext);
     bc_difficulty := difficulty;
     bc_prevrandao := prevRandao |}.

(** The [try { ... } catch (e) { throw e }] around the conversion of the
    result rethrows what it catches, so it is the conversion itself. *)
Definition dryRun (tx : TypedTransaction) (blockContext : Block)
    (forceBaseFeeZero : option bool) : M state (RunTxResult Exit) :=
  let! rethnetTx := liftE (ethereumjsTransactionToRethnet tx) in
  let difficulty :=
    _getBlockEnvDifficulty (difficulty (header blockContext)) in
  let! this := get in
  let! prevRandao :=
    liftE (_getBlockPrevRandao this (number (header blockContext))
             (mixHash (header blockContext))) in
  let! rethnetResult :=
    on_state (rethnet_guaranteedDryRun rethnetTx
                (dryRun_blockConfig blockContext forceBaseFeeZero
                   difficulty prevRandao)) in
  liftE (rethnetResultToRunTxResult rethnetResult
           (gasUsed (header blockContext))).

Definition getStateRoot : M state Buffer :=
  gets (fun this => rs_getStateRoot (_state this)).

Definition getAccount (address : Address) : M state Account :=
  gets (fun this => rs_getAccount address (_state this)).

Definition putAccount (address : Address) (account : Account)
  : M state unit :=
  on_state_ (rs_putAccount address account).

Definition restoreContext (stateRoot : Buffer) : M state unit :=
  on_state_ (rs_setStateRoot stateRoot).

Definition startBlock : M state unit := on_state_ rs_checkpoint.

Definition runTxInBlock (tx : TypedTransaction) (block : Block)
  : M state (RunTxResult Exit) :=
  let! rethnetTx := liftE (ethereumjsTransactionToRethnet tx) in
  let difficulty := _getBlockEnvDifficulty (difficulty (header block)) in
  let! this := get in
  let! prevRandao :=
    liftE (_getBlockPrevRandao this (number (header block))
             (mixHash (header block))) in
  let! rethnetResult :=
    on_state (rethnet_run rethnetTx
                (ethereumjsHeaderDataToRethnet (header block)
                   difficulty prevRandao)) in
  liftE (rethnetResultToRunTxResult rethnetResult (gasUsed (header block))).

(** The dummy header of the block builder made by [addBlockRewards]. *)
Definition dummy_header : BlockHeaderOptions :=
  {| bh_parentHash := Buffer_alloc 32 x00;
     bh_ommersHash := Buffer_alloc 32 x00;
     bh_beneficiary := Buffer_alloc 20 x00;
     bh_stateRoot := Buffer_alloc 32 x00;
     bh_transactionsRoot := Buffer_alloc 32 x00;
     bh_receiptsRoot := Buffer_alloc 32 x00;
     bh_logsBloom := Buffer_alloc 256 x00;
     bh_difficulty := 0; bh_number := 0; bh_gasLimit := 0;
     bh_gasUsed := 0; bh_timestamp := 0;
     bh_extraData := [];
     bh_mixHash := Buffer_alloc 32 x00;
     bh_nonce := 0 |}.

Definition addBlockRewards (rewards : list (Address * Z)) : M state unit :=
  on_state (blockBuilder_finalize dummy_header
              ((fun '(address, reward) => (buf address, reward)) <$> rewards)).

Definition sealBlock : M state unit := ret tt.

Definition revertBlock : M state unit := on_state_ rs_revert.

Definition makeSnapshot : M state Buffer :=
  fun this =>
    let (root, s') := rs_makeSnapshot (_state this) in
    (inr root, set_state this s').

Definition selectHardfork (blockNumber : Z) : M state string :=
  gets (fun this => _selectHardfork this blockNumber).

Definition isWarmedAddress (_address : Buffer) : M state bool := ret true.

(** [RethnetAdapter.create]: a forked configuration is refused; otherwise
    the state manager is made from the genesis accounts and [Rethnet] from
    the options. *)
Definition create `{!RethnetSetup RState} {ForkConfig : Type}
    (config : NodeConfig ForkConfig RethnetGenesisAccounts)
    (selectHardfork : Z -> string) (getBlockHash : GetBlockHash)
    (common : Common) : Exn + state :=
  match cfg_forkConfig config with
  | Some _ => inl (Error "Forking is not supported for Rethnet yet")
  | None =>
      let limitContractCodeSize :=
        if bool_decide (cfg_allowUnlimitedContractSize config = Some true)
        then Some (2 ^ 64 - 1)
        else None in
      match RethnetStateManager_withGenesisAccounts
              (cfg_genesisAccounts config) with
      | inl e => inl e
      | inr state =>
          match ethereumsjsHardforkToRethnet (cfg_hardfork config) with
          | inl e => inl e
          | inr specId =>
              match Rethnet_new getBlockHash state
                      {| ro_chainId := cfg_chainId config;
                         ro_specId := specId;
                         ro_limitContractCodeSize := limitContractCodeSize;
                         ro_disableBlockGasLimit := Some true;
                         ro_disableEip3607 := Some true |} with
              | inl e => inl e
              | inr state =>
                  inr {| _state := state;
                         _selectHardfork := selectHardfork;
                         _common := common |}
              end
          end
      end
  end.

Definition setBlockContext (block : Block)
    (irregularStateOrUndefined : option Buffer) : M state unit :=
  on_state_
    (rs_setStateRoot
       (default (stateRoot (header block)) irregularStateOrUndefined)).
End Adapter.
End RethnetAdapter.

(** ** A reference backend

    A small in-memory implementation of the library interfaces, on which
    the adapters run: a world of accounts, storage and code, a state
    manager that archives every world it has been in, and a VM that
    executes plain value transfers. *)

Module Reference.
Record World := {
  w_accounts : gmap Address Account;
  w_storage : gmap (Address * Buffer) Buffer;
  w_code : gmap Address Buffer;
}.

Record Store := {
  world : World;
  archive : list World;
}.

(** [KECCAK256_RLP] and [KECCAK256_NULL]: the storage root and code hash
    of an account without storage and code. *)
Definition KECCAK256_RLP : Buffer :=
  [x56; xe8; x1f; x17; x1b; xcc; x55; xa6; xff; x83; x45; xe6; x92; xc0;
   xf8; x6e; x5b; x48; xe0; x1b; x99; x6c; xad; xc0; x01; x62; x2f; xb5;
   xe3; x63; xb4; x21].
Definition KECCAK256_NULL : Buffer :=
  [xc5; xd2; x46; x01; x86; xf7; x23; x3c; x92; x7e; x7d; xb2; xdc; xc7;
   x03; xc0; xe5; x00; xb6; x53; xca; x82; x27; x3b; x7b; xfa; xd8; x04;
   x5d; x85; xa4; x70].

(** [new Account()] *)
Definition emptyAccount : Account :=
  {| nonce := 0; balance := 0;
     storageRoot := KECCAK256_RLP; codeHash := KECCAK256_NULL |}.

(** The 32 bytes of an unsigned 256-bit number, least significant first. *)
Definition u256_bytes (z : Z) : Buffer :=
  (fun i : nat =>
     default x00 (Byte.of_N (Z.to_N ((z / 256 ^ Z.of_nat i) mod 256))))
  <$> seq 0 32.

(** The identifier of a world: a serialisation of its content, in the
    order of the keys. *)
Definition root_of (w : World) : Buffer :=
  (flat_map (fun '(a, acc) =>
               buf a ++ u256_bytes (nonce acc) ++ u256_bytes (balance acc)
               ++ storageRoot acc ++ codeHash acc)
            (map_to_list (w_accounts w))
   ++ flat_map (fun '(ak, v) => buf ak.1 ++ ak.2 ++ v)
               (map_to_list (w_storage w))
   ++ flat_map (fun '(a, c) => buf a ++ c) (map_to_list (w_code w)))%list.

(** A write moves to a new world and keeps the old one retrievable. *)
Definition move (s : Store) (w : World) : Store :=
  {| world := w; archive := world s :: archive s |}.

Definition getStateRoot (s : Store) : Buffer := root_of (world s).

Definition setStateRoot (root : Buffer) (s : Store) : Exn + Store :=
  match List.find (fun w => bool_decide (root_of w = root))
                  (world s :: archive s) with
  | Some w => inr (move s w)
  | None => inl (Error "State trie does not contain state root")
  end.

Definition getAccount (a : Address) (s : Store) : Account :=
  default emptyAccount (w_accounts (world s) !! a).

(** The write of an account, and [putAccount], which refuses an account
    that cannot be stored. *)
Definition writeAccount (a : Address) (acc : Account) (s : Store) : Store :=
  move s {| w_accounts := <[a := acc]> (w_accounts (world s));
            w_storage := w_storage (world s);
            w_code := w_code (world s) |}.

Definition putAccount (a : Address) (acc : Account) (s : Store)
  : Exn + Store :=
  if (nonce acc <? 0) || (balance acc <? 0)
  then inl (Error "Cannot store an account with a negative nonce or balance")
  else inr (writeAccount a acc s).

Definition getContractStorage (a : Address) (key : Buffer) (s : Store)
  : Buffer :=
  default [] (w_storage (world s) !! (a, key)).

Definition putContractStorage (a : Address) (key value : Buffer)
    (s : Store) : Exn + Store :=
  if negb (length key =? 32)%nat
  then inl (Error "Storage key must be 32 bytes long")
  else if (32 <? length value)%nat
  then inl (Error "Storage value cannot be longer than 32 bytes")
  else
    inr (move s {| w_accounts := w_accounts (world s);
                   w_storage := <[(a, key) := value]> (w_storage (world s));
                   w_code := w_code (world s) |}).

Definition getContractCode (a : Address) (s : Store) : Buffer :=
  default [] (w_code (world s) !! a).

Definition putContractCode (a : Address) (value : Buffer) (s : Store)
  : Exn + Store :=
  inr (move s {| w_accounts := w_accounts (world s);
                 w_storage := w_storage (world s);
                 w_code := <[a := value]> (w_code (world s)) |}).

Definition accountIsEmpty (a : Address) (s : Store) : bool :=
  bool_decide (getAccount a s = emptyAccount).

#[export] Instance stateManager : StateManager Store :=
  {| sm_getStateRoot := getStateRoot;
     sm_setStateRoot := setStateRoot;
     sm_getAccount := getAccount;
     sm_putAccount := putAccount;
     sm_getContractStorage := getContractStorage;
     sm_putContractStorage := putContractStorage;
     sm_getContractCode := getContractCode;
     sm_putContractCode := putContractCode;
     sm_accountIsEmpty := accountIsEmpty |}.

(** The roots the store can go to: those of the worlds it has been in. *)
Definition has_root (s : Store) (r : Buffer) : Prop :=
  exists w, w ∈ world s :: archive s /\ root_of w = r.

(** A value transfer: it checks the nonce and the balance of the sender
    unless told to skip that, and then moves the value. *)
Definition transfer (tx : TypedTransaction) (s : Store) : Store :=
  let sender := getAccount (tx_sender tx) s in
  let s1 :=
    writeAccount (tx_sender tx)
      {| nonce := nonce sender + 1;
         balance := Z.max 0 (balance sender - tx_value tx);
         storageRoot := storageRoot sender;
         codeHash := codeHash sender |} s in
  match tx_to tx with
  | None => s1
  | Some to =>
      writeAccount to (add_balance (getAccount to s1) (tx_value tx)) s1
  end.

Definition runTx (opts : RunTxOpts) (vm : VM Store)
  : (Exn + option VMRunTxResult) * VM Store :=
  let tx := opt_tx opts in
  let sender := getAccount (tx_sender tx) (vm_stateManager vm) in
  if negb (default false (skipNonce opts))
     && negb (nonce sender =? tx_nonce tx)
  then (inl (Error "the tx doesn't have the correct nonce"), vm)
  else if negb (default false (skipBalance opts))
          && (balance sender <? tx_value tx)
  then (inl (Error "sender doesn't have enough funds to send tx"), vm)
  else
    (inr (Some
       {| evm := {| createdAddress := None;
                    execResult :=
                      {| exceptionError := None;
                         executionGasUsed := 0;
                         returnValue := [];
                         gasRefund := None;
                         selfdestruct := Some ∅;
                         logs := Some [] |} |};
          bloom_bitvector := Buffer_alloc 256 x00;
          totalGasSpent := 21000;
          receipt := {| cumulativeBlockGasUsed :=
                          gasUsed (header (opt_block opts)) + 21000;
                        receipt_bitvector := Buffer_alloc 256 x00;
                        receipt_logs := [] |} |}),
     {| vm_common := vm_common vm;
        vm_stateManager := transfer tx (vm_stateManager vm) |}).

(** The order of the hardforks, oldest first. *)
Definition HARDFORKS_ORDER : list string :=
  ["chainstart"; "homestead"; "dao"; "tangerineWhistle"; "spuriousDragon";
   "byzantium"; "constantinople"; "petersburg"; "istanbul"; "muirGlacier";
   "berlin"; "london"; "arrowGlacier"; "grayGlacier"; "merge"].

Fixpoint index_of (x : string) (l : list string) : option nat :=
  match l with
  | [] => None
  | y :: l => if String.eqb x y then Some O else S <$> index_of x l
  end.

Definition hardfork_gte (a b : string) : bool :=
  match index_of a HARDFORKS_ORDER, index_of b HARDFORKS_ORDER with
  | Some i, Some j => (j <=? i)%nat
  | Some _, None => true
  | None, Some _ => false
  | None, None => true
  end.

#[export] Instance ethereumJS : EthereumJS Store :=
  {| vm_runTx := runTx;
     hardforkGteHardfork := fun _ a b => hardfork_gte a b;
     gteHardfork_ := fun c b => hardfork_gte (hardfork c) b |}.

Inductive ExitValue :=
| Success
| Revert
| Halt (code : string).

#[export] Instance collaborators : Collaborators :=
  {| Exit := ExitValue;
     ExceptionalHalt := string;
     fromEthereumJSEvmError := fun e =>
       match e with
       | None => inr Success
       | Some e =>
           if String.eqb (error e) ERROR_REVERT then inr Revert
           else inr (Halt (error e))
       end;
     getRethnetExceptionalHalt := fun x =>
       match x with
       | Halt code => inr code
       | _ => inl (Error "not an exceptional halt")
       end;
     VMTracer := list (TracingMessageResult string);
     VMDebugTracer := list (TracingMessageResult string);
     vmTracer_addAfterMessage := fun m t => inr (m :: t);
     vmDebugTracer_addAfterMessage := fun m t => inr (m :: t) |}.

(** The state of the native backend: a store and its open checkpoints. *)
Record RState := {
  store : Store;
  checkpoints : list World;
}.

Definition on_store (f : Store -> Store) (s : RState) : RState :=
  {| store := f (store s); checkpoints := checkpoints s |}.

Definition credit (s : Store) (r : Buffer * Z) : Store :=
  writeAccount {| buf := r.1 |}
    (add_balance (getAccount {| buf := r.1 |} s) r.2) s.

(** The transfer VM run in a block environment of the native backend;
    [skip] tells whether the nonce and balance checks are skipped. *)
Definition run_in (block : BlockConfig) (tx : TypedTransaction)
    (skip : option bool) (s : Store) : (Exn + VMRunTxResult) * Store :=
  let (r, vm) :=
    runTx {| opt_block :=
               {| header :=
                    {| number := bc_number block;
                       coinbase := {| buf := bc_coinbase block |};
                       timestamp := bc_timestamp block;
                       baseFeePerGas := bc_basefee block;
                       gasLimit := bc_gasLimit block;
                       gasUsed := 0;
                       difficulty := bc_difficulty block;
                       mixHash := bc_prevrandao block;
                       stateRoot := [] |};
                  transactions := [] |};
             opt_tx := tx; skipNonce := skip; skipBalance := skip;
             skipBlockGasLimitValidation := skip |}
          {| vm_common := {| chainId := None; networkId := 0;
                             hardfork := "" |};
             vm_stateManager := s |} in
  (match r with
   | inl e => inl e
   | inr None => inl (Error "no result")
   | inr (Some x) => inr x
   end, vm_stateManager vm).

#[export] Instance rethnetLib : RethnetLib RState :=
  {| RethnetTx := TypedTransaction;
     RethnetExecResult := VMRunTxResult;
     rs_getStateRoot := fun s => getStateRoot (store s);
     rs_setStateRoot := fun r s =>
       match setStateRoot r (store s) with
       | inl e => inl e
       | inr st => inr {| store := st; checkpoints := checkpoints s |}
       end;
     rs_checkpoint := fun s =>
       inr {| store := store s;
              checkpoints := world (store s) :: checkpoints s |};
     rs_revert := fun s =>
       match checkpoints s with
       | [] => inl (Error "no checkpoint to revert to")
       | w :: ws => inr {| store := move (store s) w; checkpoints := ws |}
       end;
     rs_makeSnapshot := fun s => (getStateRoot (store s), s);
     rs_getAccount := fun a s => getAccount a (store s);
     rs_putAccount := fun a acc s =>
       match putAccount a acc (store s) with
       | inl e => inl e
       | inr st => inr {| store := st; checkpoints := checkpoints s |}
       end;
     rethnet_guaranteedDryRun := fun tx block s =>
       (fst (run_in block tx (Some true) (store s)), s);
     rethnet_run := fun tx block s =>
       let (r, st) := run_in block tx None (store s) in
       (r, {| store := st; checkpoints := checkpoints s |});
     blockBuilder_finalize := fun _ rewards s =>
       if forallb (fun r : Buffer * Z => 0 <=? r.2) rewards
       then (inr tt, on_store (fun st => foldl credit st rewards) s)
       else (inl (Error "A reward cannot be negative"), s);
     ethereumjsTransactionToRethnet := inr;
     ethereumjsHeaderDataToRethnet := fun h difficulty prevRandao =>
       {| bc_number := number h; bc_coinbase := buf (coinbase h);
          bc_timestamp := timestamp h; bc_basefee := baseFeePerGas h;
          bc_gasLimit := gasLimit h; bc_difficulty := difficulty;
          bc_prevrandao := prevRandao |};
     rethnetResultToRunTxResult := fun Co r blockGasUsed =>
       match fromEthereumJSEvmError (exceptionError (execResult (evm r))) with
       | inl e => inl e
       | inr x =>
           inr {| rtr_bloom := {| bitvector := bloom_bitvector r |};
                  rtr_createdAddress := createdAddress (evm r);
                  rtr_gasUsed := totalGasSpent r;
                  rtr_returnValue := returnValue (execResult (evm r));
                  rtr_exit := x;
                  rtr_receipt :=
                    {| cumulativeBlockGasUsed :=
                         blockGasUsed + totalGasSpent r;
                       receipt_bitvector := bloom_bitvector r;
                       receipt_logs := [] |} |}
       end;
     hardforkGte := hardfork_gte;
     HardforkName_MERGE := "merge" |}.

(** A node: genesis accounts with their balances; a fork configuration
    is the network id and the block number of the forked chain. *)
Definition genesis_store (g : list (Address * Z)) : Store :=
  {| world :=
       {| w_accounts :=
            list_to_map
              ((fun '(a, bal) =>
                  (a, {| nonce := 0; balance := bal;
                         storageRoot := KECCAK256_RLP;
                         codeHash := KECCAK256_NULL |})) <$> g);
          w_storage := ∅;
          w_code := ∅ |};
     archive := [] |}.

#[export] Instance nodeSetup : NodeSetup Store :=
  {| ForkConfig := Z * Z;
     GenesisAccounts := list (Address * Z);
     makeForkClient := fun fc _ => inr fc;
     ForkStateManager_new := fun _ _ g => inr (genesis_store g);
     DefaultStateManager_new := fun g => inr (genesis_store g);
     VMTracer_new := fun _ _ => [] |}.

Definition account (last : byte) : Address :=
  {| buf := (Buffer_alloc 19 x00 ++ [last])%list |}.
Definition alice : Address := account x0a.
Definition bob : Address := account x0b.
Definition carol : Address := account x0c.

Definition hardhat_common : Common :=
  {| chainId := Some 31337; networkId := 31337; hardfork := "merge" |}.

(** Berlin up to block 9, London up to block 19, the Merge from 20 on. *)
Definition selector (n : Z) : string :=
  if n <? 10 then "berlin" else if n <? 20 then "london" else "merge".

Definition config (fork : option (Z * Z))
  : NodeConfig (Z * Z) (list (Address * Z)) :=
  {| cfg_networkId := 31337; cfg_chainId := 31337;
     cfg_hardfork := "merge"; cfg_forkConfig := fork;
     cfg_forkCachePath := None;
     cfg_genesisAccounts := [(alice, 100)];
     cfg_allowUnlimitedContractSize := None |}.

(** The adapter that [create] makes for a configuration. *)
Definition adapter (fork : option (Z * Z)) : EthereumJSAdapter.state :=
  {| EthereumJSAdapter._blockStartStateRoot := None;
     EthereumJSAdapter._vmTracer := [];
     EthereumJSAdapter._vmDebugTracer := None;
     EthereumJSAdapter._vm :=
       {| vm_common := hardhat_common;
          vm_stateManager := genesis_store [(alice, 100)] |};
     EthereumJSAdapter._common := hardhat_common;
     EthereumJSAdapter._configNetworkId := 31337;
     EthereumJSAdapter._configChainId := 31337;
     EthereumJSAdapter._selectHardfork := selector;
     EthereumJSAdapter._forkNetworkId := fst <$> fork;
     EthereumJSAdapter._forkBlockNumber := snd <$> fork |}.

(** The same node with a genesis account of 100 ether. *)
Definition funded_adapter : EthereumJSAdapter.state :=
  {| EthereumJSAdapter._blockStartStateRoot := None;
     EthereumJSAdapter._vmTracer := [];
     EthereumJSAdapter._vmDebugTracer := None;
     EthereumJSAdapter._vm :=
       {| vm_common := hardhat_common;
          vm_stateManager := genesis_store [(alice, 100 * 10 ^ 18)] |};
     EthereumJSAdapter._common := hardhat_common;
     EthereumJSAdapter._configNetworkId := 31337;
     EthereumJSAdapter._configChainId := 31337;
     EthereumJSAdapter._selectHardfork := selector;
     EthereumJSAdapter._forkNetworkId := None;
     EthereumJSAdapter._forkBlockNumber := None |}.

Definition native_adapter : RethnetAdapter.state :=
  {| RethnetAdapter._state :=
       {| store := genesis_store [(alice, 100)]; checkpoints := [] |};
     RethnetAdapter._selectHardfork := selector;
     RethnetAdapter._common := hardhat_common |}.

Definition block_at (n : Z) (fee : option Z) (mix : option Buffer) : Block :=
  {| header :=
       {| number := n; coinbase := carol; timestamp := 1700000000 + n;
          baseFeePerGas := fee; gasLimit := 30000000; gasUsed := 0;
          difficulty := Some 1; mixHash := mix; stateRoot := [] |};
     transactions := [] |}.

Definition pay (from to : Address) (value nonce : Z) : TypedTransaction :=
  {| tx_sender := from; tx_to := Some to; tx_nonce := nonce;
     tx_gasLimit := 21000; tx_value := value; tx_data := [] |}.

(** A result of a message that stopped, one that returned bytes, and one
    whose frame destroyed an account. *)
Definition message_result (created : option Address) (ret : Buffer)
    (destroyed : option (gmap string Buffer)) : EVMResult :=
  {| createdAddress := created;
     execResult :=
       {| exceptionError := None; executionGasUsed := 21000;
          returnValue := ret; gasRefund := None;
          selfdestruct := destroyed; logs := None |} |}.
(** The reference state manager is not a fork-aware one. *)
#[export] Instance forkAware : ForkAware Store :=
  {| instanceof_ForkStateManager := false;
     fsm_restoreForkBlockContext := fun _ _ =>
       inl (Error "not a fork state manager");
     fsm_setBlockContext := fun _ _ _ _ =>
       inl (Error "not a fork state manager") |}.

(** A message of the reference VM: its target, the address whose code
    runs when that is another one, and its data. *)
Record Msg := {
  m_to : option Address;
  m_codeAddress : option Address;
  m_data : Buffer;
}.

#[export] Instance evmEvents : EVMEvents :=
  {| Message := Msg;
     message_to := m_to;
     message_codeAddress := fun m =>
       match m_codeAddress m, m_to m with
       | Some a, _ => inr a
       | None, Some a => inr a
       | None, None => inl (Error "Missing codeAddress")
       end;
     vmTracer_addBeforeMessage := fun _ t => inr t;
     vmDebugTracer_addBeforeMessage := fun _ t => inr t;
     vmTracer_addStep := fun _ t => inr t;
     vmDebugTracer_addStep := fun _ t => inr t |}.

#[export] Instance rethnetSetup : RethnetSetup RState :=
  {| SpecId := string;
     RethnetGenesisAccounts := list (Address * Z);
     GetBlockHash := Z -> Buffer;
     ethereumsjsHardforkToRethnet := fun h =>
       if bool_decide (h ∈ HARDFORKS_ORDER) then inr h
       else inl (Error "Unknown hardfork name");
     RethnetStateManager_withGenesisAccounts := fun g =>
       inr {| store := genesis_store g; checkpoints := [] |};
     Rethnet_new := fun _ s _ => inr s |}.

(** A state manager that keeps no archive: it can only be set to the root
    it is at. *)
Definition setStateRoot_current (root : Buffer) (s : Store) : Exn + Store :=
  if bool_decide (root_of (world s) = root) then inr s
  else inl (Error "State trie does not contain state root").

Definition pruningStateManager : StateManager Store :=
  {| sm_getStateRoot := getStateRoot;
     sm_setStateRoot := setStateRoot_current;
     sm_getAccount := getAccount;
     sm_putAccount := putAccount;
     sm_getContractStorage := getContractStorage;
     sm_putContractStorage := putContractStorage;
     sm_getContractCode := getContractCode;
     sm_putContractCode := putContractCode;
     sm_accountIsEmpty := accountIsEmpty |}.
End Reference.

(** * Properties of [EthereumJSAdapter] *)

Section EthereumJSProperties.
Import EthereumJSAdapter.
Context {Store : Type} `{SM : StateManager Store} `{EJS : EthereumJS Store}.
Context `{Co : Collaborators}.

Local Abbreviation state := (@state Store Co).

(** The options of the [vm.runTx] call of [dryRun]. *)
Local Abbreviation dryRun_opts tx blk :=
  {| opt_block := blk; opt_tx := tx; skipNonce := Some true;
     skipBalance := Some true; skipBlockGasLimitValidation := Some true |}.

(** The options of the [vm.runTx] call of [runTxInBlock]. *)
Local Abbreviation inBlock_opts tx blk :=
  {| opt_block := blk; opt_tx := tx; skipNonce := None;
     skipBalance := None; skipBlockGasLimitValidation := None |}.

Lemma dryRun_unfold (tx : TypedTransaction) (b : Block) (f : option bool)
    (this : state) :
  dryRun tx b f this =
  let blk := dryRun_block this b (default false f) in
  let (r, vm') :=
    vm_runTx (dryRun_opts tx blk)
             {| vm_common := dryRun_common this blk;
                vm_stateManager := _stateManager this |} in
  dryRun_exit this (sm_getStateRoot (_stateManager this)) r vm'.
Proof.
  unfold dryRun, dryRun_exit, with_local, try_finally, bind, on_this, get,
    getStateRoot, gets, set_local, get_local, modify, set_vm_common,
    vm_runTx_, stateManager_setStateRoot, _stateManager, set_stateManager.
  cbn.
  destruct (vm_runTx _ _) as [r vm']. cbn.
  destruct r as [e | [x |]]; cbn.
  - destruct (sm_setStateRoot _ _); reflexivity.
  - unfold liftE. destruct (sm_setStateRoot _ _); reflexivity.
  - unfold throw. destruct (sm_setStateRoot _ _); reflexivity.
Qed.

Lemma runTxInBlock_unfold (tx : TypedTransaction) (block : Block)
    (this : state) :
  runTxInBlock tx block this =
  (match fst (vm_runTx (inBlock_opts tx block) (_vm this)) with
   | inl e => inl e
   | inr None => inl (HardhatInvariantViolation "Should have a result")
   | inr (Some x) => toRunTxResult x
   end,
   set_vm this (snd (vm_runTx (inBlock_opts tx block) (_vm this)))).
Proof.
  unfold runTxInBlock, bind, vm_runTx_.
  destruct (vm_runTx _ _) as [[e | [x |]] vm']; reflexivity.
Qed.

Lemma runTxsInBlock_state (txs : list (TypedTransaction * Block))
    (this : state) :
  exists rs,
    runTxsInBlock txs this = (inr rs, set_vm this (vm_after txs (_vm this))).
Proof.
  revert this. induction txs as [| [tx block] txs IH]; intros this.
  - exists []. destruct this; reflexivity.
  - cbn [runTxsInBlock]. unfold bind at 1. unfold attempt.
    rewrite runTxInBlock_unfold.
    destruct (IH (set_vm this
                    (snd (vm_runTx (inBlock_opts tx block) (_vm this)))))
      as [rs Hrs].
    eexists. unfold bind. rewrite Hrs. reflexivity.
Qed.

Section StateRoots.
Context `{!StateRootLaws Store}.

Lemma hasRoot_vm_after (txs : list (TypedTransaction * Block))
    (vm : VM Store) (r : Buffer) :
  sm_hasRoot (vm_stateManager vm) r ->
  sm_hasRoot (vm_stateManager (vm_after txs vm)) r.
Proof.
  revert vm. induction txs as [| [tx block] txs IH]; intros vm Hr.
  - exact Hr.
  - cbn. apply IH. apply hasRoot_runTx. exact Hr.
Qed.

(** C3.  After [startBlock], any number of [runTxInBlock] calls and
    [revertBlock], the state root is the one that was there before
    [startBlock]; [revertBlock] returns and no block is left open. *)
Theorem revertBlock_restores_state_root
    (txs : list (TypedTransaction * Block)) (this : state) :
  _blockStartStateRoot this = None ->
  let run := (startBlock ;;; runTxsInBlock txs ;;; revertBlock) this in
  fst run = inr tt
  /\ sm_getStateRoot (_stateManager (snd run))
     = sm_getStateRoot (_stateManager this)
  /\ _blockStartStateRoot (snd run) = None.
Proof.
  intros Hnone run.
  assert (exists final,
             run = (inr tt, final)
             /\ sm_getStateRoot (_stateManager final)
                = sm_getStateRoot (_stateManager this)
             /\ _blockStartStateRoot final = None) as (final & Hrun & H).
  { subst run.
    unfold startBlock, bind at 1 2. unfold get at 1. rewrite Hnone.
    unfold bind at 1. unfold getStateRoot, gets, modify.
    set (root := sm_getStateRoot (_stateManager this)).
    destruct (runTxsInBlock_state txs
                (set_blockStartStateRoot this (Some root))) as [rs Hrs].
    unfold bind at 1. rewrite Hrs.
    unfold revertBlock, bind, get. cbn.
    pose proof (hasRoot_vm_after txs (_vm this) root
                  (hasRoot_getStateRoot _)) as Hroot.
    destruct (hasRoot_setStateRoot _ _ Hroot) as (s' & Hset & Hget).
    unfold stateManager_setStateRoot, _stateManager. cbn.
    rewrite Hset. cbn. eexists. split; [reflexivity |].
    cbn. split; [exact Hget | reflexivity]. }
  rewrite Hrun. cbn. tauto.
Qed.
End StateRoots.

(** C10.  [sealBlock] on an open block only clears the block-start
    marker: the VM and its state manager are the same object before and
    after, so the state root and every account, storage slot and code
    entry read the same.  What the [runTxInBlock] calls of the block wrote
    is therefore all there after [sealBlock], which commits nothing: the
    store is the one the backend left after the last transaction. *)
Theorem sealBlock_only_clears_marker (this : state) (root : Buffer)
    (txs : list (TypedTransaction * Block)) :
  _blockStartStateRoot this = Some root ->
  sealBlock this = (inr tt, set_blockStartStateRoot this None)
  /\ (let this' := snd (sealBlock this) in
      _blockStartStateRoot this' = None
      /\ _vm this' = _vm this
      /\ fst (getStateRoot this') = fst (getStateRoot this)
      /\ (forall a, fst (getAccount a this') = fst (getAccount a this))
      /\ (forall a k, fst (getContractStorage a k this')
                      = fst (getContractStorage a k this))
      /\ (forall a, fst (getContractCode a this')
                    = fst (getContractCode a this)))
  /\ (let run := (runTxsInBlock txs ;;; sealBlock) this in
      fst run = inr tt
      /\ _vm (snd run) = vm_after txs (_vm this)
      /\ _vm (snd run) = _vm (snd (runTxsInBlock txs this))).
Proof.
  intros Hopen.
  assert (sealBlock this = (inr tt, set_blockStartStateRoot this None))
    as Hseal.
  { unfold sealBlock, bind, get. rewrite Hopen. reflexivity. }
  split; [exact Hseal |]. split.
  - rewrite Hseal. cbn. repeat split.
  - destruct (runTxsInBlock_state txs this) as [rs Hrs].
    intros run.
    assert (run = (inr tt,
                   set_blockStartStateRoot
                     (set_vm this (vm_after txs (_vm this))) None)) as Hrun.
    { subst run. unfold bind at 1. rewrite Hrs.
      unfold sealBlock, bind, get. cbn. rewrite Hopen. reflexivity. }
    rewrite Hrun, Hrs. cbn. repeat split.
Qed.

(** C2, amended.  In [EthereumJSAdapter], [startBlock] throws when a block
    is already started and [sealBlock] throws when no block is started;
    both leave the adapter as it was. *)
Theorem startBlock_sealBlock_guards (this : state) :
  (forall root,
      _blockStartStateRoot this = Some root ->
      startBlock this = (inl (Error "a block is already started"), this))
  /\ (_blockStartStateRoot this = None ->
      sealBlock this
      = (inl (Error "Cannot seal a block that wasn't started"), this)).
Proof.
  split.
  - intros root Hopen. unfold startBlock, bind, get. rewrite Hopen.
    reflexivity.
  - intros Hnone. unfold sealBlock, bind, get. rewrite Hnone. reflexivity.
Qed.

Lemma add_balance_0 (acc : Account) : add_balance acc 0 = acc.
Proof. destruct acc. unfold add_balance. cbn. f_equal. lia. Qed.

Lemma add_balance_add (acc : Account) (x y : Z) :
  add_balance (add_balance acc x) y = add_balance acc (x + y).
Proof. unfold add_balance. cbn. f_equal. lia. Qed.


Lemma addBlockRewards_cons (b : Address) (x : Z)
    (rewards : list (Address * Z)) (this : state) :
  addBlockRewards ((b, x) :: rewards) this
  = match sm_putAccount b
            (add_balance (sm_getAccount b (_stateManager this)) x)
            (_stateManager this) with
    | inl e => (inl e, this)
    | inr s' => addBlockRewards rewards (set_stateManager this s')
    end.
Proof.
  cbn [addBlockRewards].
  unfold bind, getAccount, gets, putAccount, stateManager_put.
  destruct (sm_putAccount _ _ _); reflexivity.
Qed.

Lemma addBlockRewards_valid `{!AccountLaws Store}
    (rewards : list (Address * Z)) (this : state) :
  Forall (fun ar : Address * Z => 0 <= ar.2) rewards ->
  valid_accounts (_stateManager this) ->
  fst (addBlockRewards rewards this) = inr tt
  /\ (forall a,
        sm_getAccount a (_stateManager (snd (addBlockRewards rewards this)))
        = add_balance (sm_getAccount a (_stateManager this))
                      (total_reward a rewards)).
Proof.
  revert this. induction rewards as [| [b x] rewards IH];
    intros this Hpos Hvalid.
  - split; [reflexivity |]. intros a. cbn. symmetry. apply add_balance_0.
  - apply Forall_cons in Hpos as [Hx Hpos]. cbn in Hx.
    rewrite addBlockRewards_cons.
    destruct (putAccount_valid b
                (add_balance (sm_getAccount b (_stateManager this)) x)
                (_stateManager this)) as [s' Hput].
    { destruct (Hvalid b) as [Hn Hb]. split; cbn; lia. }
    rewrite Hput.
    assert (valid_accounts (_stateManager (set_stateManager this s')))
      as Hvalid'.
    { intros a. unfold set_stateManager, _stateManager. cbn.
      destruct (decide (b = a)) as [<- | Hne].
      - rewrite (getAccount_putAccount _ _ _ _ Hput).
        destruct (Hvalid b) as [Hn Hb]. split; cbn; lia.
      - rewrite (getAccount_putAccount_ne _ _ _ _ _ Hput Hne).
        apply Hvalid. }
    destruct (IH _ Hpos Hvalid') as [Hok Hacc]. split; [exact Hok |].
    intros a. rewrite Hacc. unfold set_stateManager, _stateManager. cbn.
    case_decide as Hb.
    + subst b. rewrite (getAccount_putAccount _ _ _ _ Hput).
      apply add_balance_add.
    + rewrite (getAccount_putAccount_ne _ _ _ _ _ Hput Hb). f_equal.
Qed.

Lemma selfdestructed_keys (result : EVMResult) :
  selfdestructed result <->
  match selfdestruct (execResult result) with
  | Some sd => (0 <? length (Object_keys sd))%nat
  | None => false
  end = true.
Proof.
  unfold selfdestructed, Object_keys.
  destruct (selfdestruct (execResult result)) as [sd |].
  - rewrite length_fmap, length_map_to_list, Nat.ltb_lt. split.
    + intros (sd' & a & v & Hsd & Ha). inversion Hsd; subst sd'.
      assert (size sd <> 0)%nat; [| lia].
      apply map_size_ne_0_lookup. exists a. rewrite Ha. eauto.
    + intros Hsize. assert (size sd <> 0)%nat as Hne by lia.
      apply map_size_ne_0_lookup in Hne as [a [v Ha]]. eauto 6.
  - split; [| discriminate]. intros (sd & a & v & Hsd & _). discriminate.
Qed.

(** C4.  For a result without exception error the handler builds a
    success result, and its reason follows the rule: [SelfDestruct] when
    the frame self-destructed at least one account; otherwise [Return]
    when there is a created address or the return value is not empty;
    otherwise [Stop].  This result is what the handler gives to the
    tracers. *)
Theorem success_reason_rule (result : EVMResult) (this : state) :
  exceptionError (execResult result) = None ->
  exists reason gasUsed gasRefunded logs output,
    afterMessage_executionResult result
    = inr (SuccessResult reason gasUsed gasRefunded logs output)
    /\ (selfdestructed result -> reason = SelfDestruct)
    /\ (~ selfdestructed result ->
        createdAddress result <> None
        \/ returnValue (execResult result) <> [] ->
        reason = Return)
    /\ (~ selfdestructed result ->
        createdAddress result = None ->
        returnValue (execResult result) = [] ->
        reason = Stop)
    /\ _afterMessageHandler result this
       = let m := {| tmr_result :=
                       SuccessResult reason gasUsed gasRefunded logs output;
                     tmr_trace_steps := [];
                     tmr_trace_returnValue :=
                       returnValue (execResult result) |} in
         try_catch (addAfterMessage_vmTracer m ;;;
                    addAfterMessage_vmDebugTracer m ;;;
                    ret None)
                   (fun e => ret (Some e)) this.
Proof.
  intros Hnoerr.
  pose proof (selfdestructed_keys result) as Hsd.
  unfold _afterMessageHandler, afterMessage_executionResult.
  rewrite Hnoerr.
  do 5 eexists. split; [reflexivity |].
  split; [| split; [| split]].
  - intros H. apply Hsd in H. rewrite H. reflexivity.
  - intros Hno Hret.
    destruct (match selfdestruct (execResult result) with
              | Some sd => (0 <? length (Object_keys sd))%nat
              | None => false
              end) eqn:Hk.
    { exfalso. apply Hno, Hsd. reflexivity. }
    destruct Hret as [Hc | Hr].
    + rewrite bool_decide_eq_true_2 by exact Hc. reflexivity.
    + destruct (returnValue (execResult result)); [congruence |].
      cbn. rewrite orb_true_r. reflexivity.
  - intros Hno Hc Hr.
    destruct (match selfdestruct (execResult result) with
              | Some sd => (0 <? length (Object_keys sd))%nat
              | None => false
              end) eqn:Hk.
    { exfalso. apply Hno, Hsd. reflexivity. }
    rewrite Hr, bool_decide_eq_false_2 by (intros H; exact (H Hc)).
    reflexivity.
  - reflexivity.
Qed.

Lemma create_created `{!NodeSetup Store} (common : Common)
    (config : NodeConfig ForkConfig GenesisAccounts)
    (selectHardfork : Z -> string) (this : state) :
  create common config selectHardfork = inr this ->
  created this /\ (forked this <-> cfg_forkConfig config <> None).
Proof.
  unfold create, created, forked.
  destruct (cfg_forkConfig config) as [fc |].
  - destruct (makeForkClient _ _) as [e | [net n]]; [discriminate |].
    destruct (ForkStateManager_new _ _ _); [discriminate |].
    intros [= <-]. cbn. split; split; congruence.
  - destruct (DefaultStateManager_new _); [discriminate |].
    intros [= <-]. cbn. split; split; congruence.
Qed.

(** C5.  The chain configuration under which [dryRun] runs the
    transaction comes from the number of the block: the chain id is the
    configured one when the adapter is not forked or the block is at or
    past the fork block, and the fork network id otherwise; the network
    id is the fork network id when forked and the configured one
    otherwise; the hardfork is the one the selector gives for the
    number. *)
Theorem dryRun_chain_configuration (tx : TypedTransaction) (b : Block)
    (f : option bool) (this : state) :
  let blk := dryRun_block this b (default false f) in
  let c := dryRun_common this blk in
  created this ->
  (let (r, vm') :=
     vm_runTx (dryRun_opts tx blk)
              {| vm_common := c; vm_stateManager := _stateManager this |} in
   dryRun tx b f this
   = dryRun_exit this (sm_getStateRoot (_stateManager this)) r vm')
  /\ number (header blk) = number (header b)
  /\ (~ forked this
      \/ (exists n, _forkBlockNumber this = Some n /\ n <= number (header b)) ->
      chainId c = Some (_configChainId this))
  /\ ((exists n, _forkBlockNumber this = Some n /\ number (header b) < n) ->
      chainId c = _forkNetworkId this /\ chainId c <> None)
  /\ (forked this -> Some (networkId c) = _forkNetworkId this)
  /\ (~ forked this -> networkId c = _configNetworkId this)
  /\ hardfork c = _selectHardfork this (number (header b)).
Proof.
  intros blk c Hcreated. subst c blk.
  assert (number (header (dryRun_block this b (default false f)))
          = number (header b)) as Hnum.
  { unfold dryRun_block. destruct (_ && _); reflexivity. }
  split; [| split; [exact Hnum |]].
  { rewrite dryRun_unfold. cbn zeta. destruct (vm_runTx _ _). reflexivity. }
  unfold dryRun_common, Common_custom, created, forked in *. cbn.
  rewrite Hnum.
  destruct (_forkBlockNumber this) as [n |] eqn:Hfbn;
    destruct (_forkNetworkId this) as [net |] eqn:Hnet; cbn.
  - repeat split.
    + intros [Hnf | (m & Hm & Hle)]; [exfalso; apply Hnf; discriminate |].
      inversion Hm; subst m.
      destruct (Z.geb_spec (number (header b)) n); [reflexivity | lia].
    + destruct H as (m & Hm & Hlt). inversion Hm; subst m.
      destruct (Z.geb_spec (number (header b)) n); [lia | reflexivity].
    + destruct H as (m & Hm & Hlt). inversion Hm; subst m.
      destruct (Z.geb_spec (number (header b)) n); [lia | discriminate].
    + intros Hnf. exfalso. apply Hnf. discriminate.
  - exfalso. destruct Hcreated as [H _]. specialize (H eq_refl). discriminate.
  - exfalso. destruct Hcreated as [_ H]. specialize (H eq_refl). discriminate.
  - repeat split.
    + destruct H as (m & Hm & _). discriminate.
    + discriminate.
    + intros Hf. congruence.
Qed.
End EthereumJSProperties.

(** * Properties of [RethnetAdapter] *)

Section RethnetProperties.
Import RethnetAdapter.
Context {RState : Type} `{Co : Collaborators} `{RL : RethnetLib RState}.

Local Abbreviation state := (@state RState).

(** [dryRun] after the conversions: the backend is called once, with the
    block environment of [dryRun_blockConfig], and the adapter adds no
    write of its own to what the backend leaves. *)
Lemma rethnet_dryRun_unfold (tx : TypedTransaction) (b : Block) (f : option bool)
    (this : state) (rtx : RethnetTx) (prevRandao : option Buffer) :
  ethereumjsTransactionToRethnet tx = inr rtx ->
  _getBlockPrevRandao this (number (header b)) (mixHash (header b))
  = inr prevRandao ->
  dryRun tx b f this =
  let (r, s') :=
    rethnet_guaranteedDryRun rtx
      (dryRun_blockConfig b f (_getBlockEnvDifficulty (difficulty (header b)))
         prevRandao)
      (_state this) in
  (match r with
   | inl e => inl e
   | inr x => rethnetResultToRunTxResult x (gasUsed (header b))
   end, set_state this s').
Proof.
  intros Htx Hpr. unfold dryRun, bind, liftE, get, on_state.
  rewrite Htx, Hpr.
  destruct (rethnet_guaranteedDryRun _ _ _) as [[e | x] s']; reflexivity.
Qed.

Lemma rethnet_runTxInBlock_unfold (tx : TypedTransaction) (b : Block)
    (this : state) (rtx : RethnetTx) (prevRandao : option Buffer) :
  ethereumjsTransactionToRethnet tx = inr rtx ->
  _getBlockPrevRandao this (number (header b)) (mixHash (header b))
  = inr prevRandao ->
  runTxInBlock tx b this =
  let (r, s') :=
    rethnet_run rtx
      (ethereumjsHeaderDataToRethnet (header b)
         (_getBlockEnvDifficulty (difficulty (header b))) prevRandao)
      (_state this) in
  (match r with
   | inl e => inl e
   | inr x => rethnetResultToRunTxResult x (gasUsed (header b))
   end, set_state this s').
Proof.
  intros Htx Hpr. unfold runTxInBlock, bind, liftE, get, on_state.
  rewrite Htx, Hpr.
  destruct (rethnet_run _ _ _) as [[e | x] s']; reflexivity.
Qed.

(** C7.  When the hardfork selected for the number of the block is at or
    after the Merge, the [prevRandao] of the block environment is the
    [mixHash] of the block, and the mapping throws when there is no
    [mixHash]: [dryRun] and [runTxInBlock] then throw that error before
    they reach the backend, and otherwise give the [mixHash] to the
    backend.  When the selected hardfork is before the Merge, the
    [prevRandao] is absent whatever the [mixHash] is. *)
Theorem prevRandao_mapping (this : state) (tx : TypedTransaction)
    (b : Block) (f : option bool) (rtx : RethnetTx) :
  let postMerge :=
    hardforkGte (_selectHardfork this (number (header b)))
                HardforkName_MERGE in
  let mixHashRequired :=
    Error "mixHash must be set for post-merge hardfork" in
  ethereumjsTransactionToRethnet tx = inr rtx ->
  (postMerge = true ->
   forall h,
     mixHash (header b) = Some h ->
     _getBlockPrevRandao this (number (header b)) (mixHash (header b))
     = inr (Some h)
     /\ (exists c,
           bc_prevrandao c = Some h
           /\ dryRun tx b f this
              = let (r, s') := rethnet_guaranteedDryRun rtx c (_state this) in
                (match r with
                 | inl e => inl e
                 | inr x => rethnetResultToRunTxResult x (gasUsed (header b))
                 end, set_state this s'))
     /\ runTxInBlock tx b this
        = let (r, s') :=
            rethnet_run rtx
              (ethereumjsHeaderDataToRethnet (header b)
                 (_getBlockEnvDifficulty (difficulty (header b))) (Some h))
              (_state this) in
          (match r with
           | inl e => inl e
           | inr x => rethnetResultToRunTxResult x (gasUsed (header b))
           end, set_state this s'))
  /\ (postMerge = true ->
      mixHash (header b) = None ->
      _getBlockPrevRandao this (number (header b)) (mixHash (header b))
      = inl mixHashRequired
      /\ dryRun tx b f this = (inl mixHashRequired, this)
      /\ runTxInBlock tx b this = (inl mixHashRequired, this))
  /\ (postMerge = false ->
      _getBlockPrevRandao this (number (header b)) (mixHash (header b))
      = inr None
      /\ (exists c,
            bc_prevrandao c = None
            /\ dryRun tx b f this
               = let (r, s') := rethnet_guaranteedDryRun rtx c (_state this) in
                 (match r with
                  | inl e => inl e
                  | inr x => rethnetResultToRunTxResult x (gasUsed (header b))
                  end, set_state this s'))
      /\ runTxInBlock tx b this
         = let (r, s') :=
             rethnet_run rtx
               (ethereumjsHeaderDataToRethnet (header b)
                  (_getBlockEnvDifficulty (difficulty (header b))) None)
               (_state this) in
           (match r with
            | inl e => inl e
            | inr x => rethnetResultToRunTxResult x (gasUsed (header b))
            end, set_state this s')).
Proof.
  intros postMerge mixHashRequired Htx. subst postMerge mixHashRequired.
  split; [| split].
  - intros Hpost h Hmix.
    assert (_getBlockPrevRandao this (number (header b)) (mixHash (header b))
            = inr (Some h)) as Hpr.
    { unfold _getBlockPrevRandao. rewrite Hpost, Hmix. reflexivity. }
    split; [exact Hpr |]. split.
    + eexists. split; [| apply (rethnet_dryRun_unfold _ _ _ _ _ _ Htx Hpr)].
      reflexivity.
    + apply (rethnet_runTxInBlock_unfold _ _ _ _ _ Htx Hpr).
  - intros Hpost Hmix.
    assert (_getBlockPrevRandao this (number (header b)) (mixHash (header b))
            = inl (Error "mixHash must be set for post-merge hardfork"))
      as Hpr.
    { unfold _getBlockPrevRandao. rewrite Hpost, Hmix. reflexivity. }
    split; [exact Hpr |].
    unfold dryRun, runTxInBlock, bind, liftE, get.
    rewrite Htx, Hpr. split; reflexivity.
  - intros Hpre.
    assert (_getBlockPrevRandao this (number (header b)) (mixHash (header b))
            = inr None) as Hpr.
    { unfold _getBlockPrevRandao. rewrite Hpre. reflexivity. }
    split; [exact Hpr |]. split.
    + eexists. split; [| apply (rethnet_dryRun_unfold _ _ _ _ _ _ Htx Hpr)].
      reflexivity.
    + apply (rethnet_runTxInBlock_unfold _ _ _ _ _ Htx Hpr).
Qed.

(** C9.  [isWarmedAddress] returns [true] for every address and in every
    state of the adapter, however that state was reached, and leaves the
    state as it is. *)
Theorem isWarmedAddress_always_true (address : Buffer) (this : state) :
  isWarmedAddress address this = (inr true, this).
Proof. reflexivity. Qed.
End RethnetProperties.

(** * The reference backend keeps the contract of the libraries *)

Section ReferenceLaws.
Import Reference.

Lemma has_root_move (s : Store) (w : World) (r : Buffer) :
  has_root s r -> has_root (move s w) r.
Proof.
  intros (w' & Hin & Hr). exists w'. split; [| exact Hr].
  cbn. right. exact Hin.
Qed.

Lemma has_root_transfer (tx : TypedTransaction) (s : Store) (r : Buffer) :
  has_root s r -> has_root (transfer tx s) r.
Proof.
  intros Hr. unfold transfer.
  destruct (tx_to tx); unfold writeAccount; repeat apply has_root_move;
    exact Hr.
Qed.

#[export] Instance reference_stateRootLaws : StateRootLaws Store.
Proof.
  refine {| sm_hasRoot := has_root |}.
  - intros s. exists (world s). split; [left | reflexivity].
  - intros s r (w & Hin & Hr). cbn. unfold setStateRoot.
    destruct (List.find _ _) as [w' |] eqn:Hfind.
    + apply find_some in Hfind as [_ Hw'].
      apply bool_decide_eq_true in Hw'. eexists. split; [reflexivity |].
      exact Hw'.
    + exfalso. apply list_elem_of_In in Hin.
      pose proof (find_none _ _ Hfind w Hin) as Hno. cbn in Hno.
      apply bool_decide_eq_false in Hno. exact (Hno Hr).
  - intros opts vm r Hr. cbn. unfold runTx.
    destruct (_ && _); [exact Hr |].
    destruct (_ && _); [exact Hr |].
    cbn. apply has_root_transfer. exact Hr.
Qed.

#[export] Instance reference_accountLaws : AccountLaws Store.
Proof.
  split.
  - intros a acc s [Hn Hb]. cbn. unfold putAccount.
    destruct (Z.ltb_spec (nonce acc) 0); [lia |].
    destruct (Z.ltb_spec (balance acc) 0); [lia |].
    eexists. reflexivity.
  - intros a acc s s' Hput. cbn in *. unfold putAccount in Hput.
    destruct (_ || _); [discriminate |]. injection Hput as <-.
    unfold getAccount, writeAccount. cbn.
    rewrite lookup_insert_eq. reflexivity.
  - intros a b acc s s' Hput Hne. cbn in *. unfold putAccount in Hput.
    destruct (_ || _); [discriminate |]. injection Hput as <-.
    unfold getAccount, writeAccount. cbn.
    rewrite lookup_insert_ne by exact Hne. reflexivity.
Qed.

Lemma genesis_valid (g : list (Address * Z)) :
  Forall (fun ab : Address * Z => 0 <= ab.2) g ->
  EthereumJSAdapter.valid_accounts (genesis_store g).
Proof.
  intros Hpos a. unfold sm_getAccount. cbn. unfold getAccount. cbn.
  induction Hpos as [| [b x] g Hx Hpos IH]; cbn.
  - rewrite lookup_empty. cbn. split; cbn; lia.
  - destruct (decide (b = a)) as [-> | Hne].
    + rewrite lookup_insert_eq. cbn in Hx |- *. split; cbn; lia.
    + rewrite lookup_insert_ne by exact Hne. exact IH.
Qed.

Lemma getAccount_foldl_credit (rewards : list (Buffer * Z)) (s : Store)
    (a : Address) :
  getAccount a (foldl credit s rewards)
  = add_balance (getAccount a s) (total_credit (buf a) rewards).
Proof.
  revert s. induction rewards as [| [b x] rewards IH]; intros s.
  - cbn. symmetry. apply add_balance_0.
  - cbn [foldl total_credit]. rewrite IH. destruct a as [a].
    unfold credit, getAccount, writeAccount, move. cbn.
    case_decide as Hb.
    + subst b. rewrite lookup_insert_eq. cbn. apply add_balance_add.
    + rewrite lookup_insert_ne by congruence. f_equal.
Qed.

Lemma rewards_accepted (rewards : list (Buffer * Z)) :
  Forall (fun br : Buffer * Z => 0 <= br.2) rewards ->
  forallb (fun r : Buffer * Z => 0 <=? r.2) rewards = true.
Proof.
  intros Hpos. apply Is_true_true. apply forallb_True.
  eapply Forall_impl; [exact Hpos |]. intros r Hr. cbn in Hr |- *.
  apply Is_true_true. apply Z.leb_le. exact Hr.
Qed.

#[export] Instance reference_blockBuilderLaws : BlockBuilderLaws RState.
Proof.
  split.
  - intros h rewards s Hpos. cbn.
    rewrite (rewards_accepted rewards Hpos). reflexivity.
  - intros h rewards s a Hpos. cbn.
    rewrite (rewards_accepted rewards Hpos). cbn.
    apply getAccount_foldl_credit.
Qed.

#[export] Instance reference_guaranteedDryRunLaws :
  GuaranteedDryRunLaws RState.
Proof. split. intros rtx env s. reflexivity. Qed.

Lemma create_adapter (fork : option (Z * Z)) :
  EthereumJSAdapter.create hardhat_common (config fork) selector
  = inr (adapter fork).
Proof. destruct fork as [[net n] |]; reflexivity. Qed.
End ReferenceLaws.

(** * Dry runs in both adapters *)

Section DryRun.
Context {Store : Type} `{SM : StateManager Store} `{EJS : EthereumJS Store}.
Context `{Co : Collaborators}.
Context {RState : Type} `{RL : RethnetLib RState}.

(** C1.  [EthereumJSAdapter.dryRun] leaves the state root unchanged,
    whatever the backend does: the root read on entry is set again in the
    [finally] block, on the exit with a result and on the exit with an
    exception alike, and the VM's chain configuration is put back.  The
    outcome of the call is the one of the backend: its exception, or the
    result built from its result.  [RethnetAdapter.dryRun] takes no
    snapshot: it writes nothing itself, so that the state it leaves is the
    one it found or the one the backend's guaranteed dry run left on the
    block environment made from the block; as that run keeps the state
    root, the state root of the native adapter is unchanged on every exit
    too. *)
Theorem dryRun_preserves_state_root `{!StateRootLaws Store}
    `{!GuaranteedDryRunLaws RState}
    (tx : TypedTransaction) (b : Block) (f : option bool)
    (this : @EthereumJSAdapter.state Store Co)
    (that : @RethnetAdapter.state RState) :
  let blk := EthereumJSAdapter.dryRun_block this b (default false f) in
  let backend :=
    vm_runTx {| opt_block := blk; opt_tx := tx; skipNonce := Some true;
                skipBalance := Some true;
                skipBlockGasLimitValidation := Some true |}
             {| vm_common := EthereumJSAdapter.dryRun_common this blk;
                vm_stateManager := EthereumJSAdapter._stateManager this |} in
  let this' := snd (EthereumJSAdapter.dryRun tx b f this) in
  let that' := snd (RethnetAdapter.dryRun tx b f that) in
  (sm_getStateRoot (EthereumJSAdapter._stateManager this')
   = sm_getStateRoot (EthereumJSAdapter._stateManager this)
   /\ vm_common (EthereumJSAdapter._vm this')
      = vm_common (EthereumJSAdapter._vm this)
   /\ EthereumJSAdapter._blockStartStateRoot this'
      = EthereumJSAdapter._blockStartStateRoot this
   /\ fst (EthereumJSAdapter.dryRun tx b f this) =
      match fst backend with
      | inl e => inl e
      | inr None => inl (HardhatInvariantViolation "Should have a result")
      | inr (Some x) => EthereumJSAdapter.toRunTxResult x
      end)
  /\ (rs_getStateRoot (RethnetAdapter._state that')
      = rs_getStateRoot (RethnetAdapter._state that)
      /\ (that' = that
          \/ exists rtx prevRandao,
               ethereumjsTransactionToRethnet tx = inr rtx
               /\ RethnetAdapter._getBlockPrevRandao that (number (header b))
                    (mixHash (header b)) = inr prevRandao
               /\ that' = RethnetAdapter.set_state that
                            (snd (rethnet_guaranteedDryRun rtx
                                    (RethnetAdapter.dryRun_blockConfig b f
                                       (RethnetAdapter._getBlockEnvDifficulty
                                          (difficulty (header b)))
                                       prevRandao)
                                    (RethnetAdapter._state that))))).
Proof.
  cbn zeta. split.
  - rewrite dryRun_unfold. cbn zeta.
    pose proof (hasRoot_runTx
                  {| opt_block :=
                       EthereumJSAdapter.dryRun_block this b (default false f);
                     opt_tx := tx; skipNonce := Some true;
                     skipBalance := Some true;
                     skipBlockGasLimitValidation := Some true |}
                  {| vm_common :=
                       EthereumJSAdapter.dryRun_common this
                         (EthereumJSAdapter.dryRun_block this b
                            (default false f));
                     vm_stateManager := EthereumJSAdapter._stateManager this |}
                  _ (hasRoot_getStateRoot
                       (EthereumJSAdapter._stateManager this))) as Hroot.
    cbn in Hroot.
    destruct (vm_runTx _ _) as [r vm']. cbn in Hroot.
    destruct (hasRoot_setStateRoot _ _ Hroot) as (s' & Hset & Hget).
    unfold EthereumJSAdapter.dryRun_exit. rewrite Hset. cbn.
    repeat split. exact Hget.
  - unfold RethnetAdapter.dryRun, bind, liftE, get, RethnetAdapter.on_state.
    destruct (ethereumjsTransactionToRethnet tx) as [e | rtx];
      [split; [reflexivity | left; reflexivity] |].
    destruct (RethnetAdapter._getBlockPrevRandao _ _ _)
      as [e | prevRandao] eqn:Hprev;
      [split; [reflexivity | left; reflexivity] |].
    pose proof (guaranteedDryRun_stateRoot rtx
                  (RethnetAdapter.dryRun_blockConfig b f
                     (RethnetAdapter._getBlockEnvDifficulty
                        (difficulty (header b)))
                     prevRandao)
                  (RethnetAdapter._state that)) as Hroot.
    split.
    + destruct (rethnet_guaranteedDryRun _ _ _) as [[e | x] s'];
        cbn in Hroot |- *; exact Hroot.
    + right. exists rtx, prevRandao.
      split; [reflexivity |]. split; [reflexivity |].
      destruct (rethnet_guaranteedDryRun _ _ _) as [[e | x] s']; reflexivity.
Qed.

(** C6, amended.  In [EthereumJSAdapter.dryRun], when London is active
    for the hardfork selected for the number of the block and the block
    has no base fee or [forceBaseFeeZero] is true, the transaction runs
    against a block whose base fee is 0, and in every other case against
    the block it was given.  In [RethnetAdapter.dryRun] the base fee of
    the block environment is 0 when [forceBaseFeeZero] is true and the
    one of the block otherwise, whatever the hardfork is. *)
Theorem dryRun_base_fee (tx : TypedTransaction) (b : Block)
    (f : option bool) (this : @EthereumJSAdapter.state Store Co)
    (that : @RethnetAdapter.state RState) (rtx : RethnetTx)
    (prevRandao : option Buffer) :
  let london :=
    hardforkGteHardfork (EthereumJSAdapter._common this)
      (EthereumJSAdapter._selectHardfork this (number (header b)))
      "london" in
  let blk := EthereumJSAdapter.dryRun_block this b (default false f) in
  let env :=
    RethnetAdapter.dryRun_blockConfig b f
      (RethnetAdapter._getBlockEnvDifficulty (difficulty (header b)))
      prevRandao in
  ((let (r, vm') :=
      vm_runTx {| opt_block := blk; opt_tx := tx; skipNonce := Some true;
                  skipBalance := Some true;
                  skipBlockGasLimitValidation := Some true |}
               {| vm_common := EthereumJSAdapter.dryRun_common this blk;
                  vm_stateManager := EthereumJSAdapter._stateManager this |} in
    EthereumJSAdapter.dryRun tx b f this
    = EthereumJSAdapter.dryRun_exit this
        (sm_getStateRoot (EthereumJSAdapter._stateManager this)) r vm')
   /\ (london = true ->
       baseFeePerGas (header b) = None \/ f = Some true ->
       baseFeePerGas (header blk) = Some 0)
   /\ (london = false
       \/ (baseFeePerGas (header b) <> None /\ f <> Some true) ->
       blk = b))
  /\ ((ethereumjsTransactionToRethnet tx = inr rtx ->
       RethnetAdapter._getBlockPrevRandao that (number (header b))
         (mixHash (header b)) = inr prevRandao ->
       RethnetAdapter.dryRun tx b f that
       = let (r, s') :=
           rethnet_guaranteedDryRun rtx env (RethnetAdapter._state that) in
         (match r with
          | inl e => inl e
          | inr x => rethnetResultToRunTxResult x (gasUsed (header b))
          end, RethnetAdapter.set_state that s'))
      /\ (f = Some true -> bc_basefee env = Some 0)
      /\ (f <> Some true -> bc_basefee env = baseFeePerGas (header b))).
Proof.
  cbn zeta. split; [split; [| split] | split; [| split]].
  - rewrite dryRun_unfold. cbn zeta. destruct (vm_runTx _ _). reflexivity.
  - intros Hlondon Hfee. unfold EthereumJSAdapter.dryRun_block. cbn.
    rewrite Hlondon. cbn.
    destruct Hfee as [Hnone | Hforce].
    + rewrite bool_decide_eq_true_2 by exact Hnone. reflexivity.
    + rewrite Hforce. cbn. rewrite orb_true_r. reflexivity.
  - intros Hother. unfold EthereumJSAdapter.dryRun_block. cbn.
    destruct Hother as [Hlondon | [Hfee Hforce]].
    + rewrite Hlondon. reflexivity.
    + rewrite bool_decide_eq_false_2 by exact Hfee.
      destruct f as [[|] |]; [congruence | |]; cbn;
        rewrite andb_false_r; reflexivity.
  - apply rethnet_dryRun_unfold.
  - intros Hforce. cbn. rewrite bool_decide_eq_true_2 by exact Hforce.
    reflexivity.
  - intros Hforce. cbn. rewrite bool_decide_eq_false_2 by exact Hforce.
    reflexivity.
Qed.
End DryRun.

(** * Block rewards in the two adapters *)

Section Rewards.
Context {Store : Type} `{SM : StateManager Store} `{EJS : EthereumJS Store}.
Context `{Co : Collaborators}.
Context {RState : Type} `{RL : RethnetLib RState}.



End Rewards.

(** * The theorems at work on the reference backend *)

Section Scenarios.
Import Reference.

(** Block 12 is a London block with base fee 7; block 25 is after the
    Merge. *)
Definition london_block : Block := block_at 12 (Some 7) None.
Definition merge_block : Block :=
  block_at 25 (Some 7) (Some (Buffer_alloc 32 x11)).

(** A dry run of a payment of 30 from alice to bob leaves the state root
    of the genesis state. *)
Lemma dryRun_preserves_state_root_witness :
  sm_getStateRoot
    (EthereumJSAdapter._stateManager
       (snd (EthereumJSAdapter.dryRun (pay alice bob 30 0) london_block
               None (adapter None))))
  = sm_getStateRoot (EthereumJSAdapter._stateManager (adapter None))
  /\ rs_getStateRoot
       (RethnetAdapter._state
          (snd (RethnetAdapter.dryRun (pay alice bob 30 0) london_block
                  None native_adapter)))
     = rs_getStateRoot (RethnetAdapter._state native_adapter).
Proof.
  pose proof (dryRun_preserves_state_root (RL := rethnetLib)
                (pay alice bob 30 0) london_block None
                (adapter None) native_adapter) as H.
  exact (conj (proj1 (proj1 H)) (proj1 (proj2 H))).
Defined.

(** Two payments in a block that is then reverted. *)
Lemma revertBlock_restores_state_root_witness :
  EthereumJSAdapter._blockStartStateRoot (adapter None) = None
  /\ sm_getStateRoot
       (EthereumJSAdapter._stateManager
          (snd ((EthereumJSAdapter.startBlock ;;;
                 EthereumJSAdapter.runTxsInBlock
                   [(pay alice bob 1 0, london_block);
                    (pay alice carol 2 1, london_block)] ;;;
                 EthereumJSAdapter.revertBlock) (adapter None))))
     = sm_getStateRoot (EthereumJSAdapter._stateManager (adapter None)).
Proof.
  split; [reflexivity |].
  exact (proj1 (proj2 (revertBlock_restores_state_root
                         [(pay alice bob 1 0, london_block);
                          (pay alice carol 2 1, london_block)]
                         (adapter None) eq_refl))).
Defined.

(** The two payments do change the state: inside the block the state root
    is not the one of the genesis state, and bob and carol have been paid. *)
Example payments_write_state :
  let this' :=
    snd ((EthereumJSAdapter.startBlock ;;;
          EthereumJSAdapter.runTxsInBlock
            [(pay alice bob 1 0, london_block);
             (pay alice carol 2 1, london_block)]) (adapter None)) in
  sm_getStateRoot (EthereumJSAdapter._stateManager this')
  <> sm_getStateRoot (EthereumJSAdapter._stateManager (adapter None))
  /\ balance (sm_getAccount alice (EthereumJSAdapter._stateManager this')) = 97
  /\ balance (sm_getAccount bob (EthereumJSAdapter._stateManager this')) = 1
  /\ balance (sm_getAccount carol (EthereumJSAdapter._stateManager this')) = 2.
Proof.
  cbn zeta. split; [| repeat split].
  intros H. apply (f_equal (fun l => length l)) in H. vm_compute in H.
  discriminate H.
Qed.

(** After [revertBlock] the three balances are the ones of the genesis
    state again. *)
Example revertBlock_restores_balances :
  let this' :=
    snd ((EthereumJSAdapter.startBlock ;;;
          EthereumJSAdapter.runTxsInBlock
            [(pay alice bob 1 0, london_block);
             (pay alice carol 2 1, london_block)] ;;;
          EthereumJSAdapter.revertBlock) (adapter None)) in
  balance (sm_getAccount alice (EthereumJSAdapter._stateManager this')) = 100
  /\ balance (sm_getAccount bob (EthereumJSAdapter._stateManager this')) = 0
  /\ balance (sm_getAccount carol (EthereumJSAdapter._stateManager this')) = 0.
Proof. vm_compute. repeat split. Qed.

(** The dry run of a payment returns a result that used 21000 gas, with a
    success exit, and bob is not paid. *)
Example dryRun_payment :
  let run :=
    EthereumJSAdapter.dryRun (pay alice bob 30 0) london_block None
      (adapter None) in
  (exists result,
      fst run = inr result
      /\ rtr_gasUsed result = 21000 /\ rtr_exit result = Success)
  /\ balance (sm_getAccount bob (EthereumJSAdapter._stateManager (snd run)))
     = 0.
Proof. cbn zeta. split; [eexists |]; vm_compute; repeat split. Qed.

(** The adapter after [startBlock]. *)
Definition open_adapter : EthereumJSAdapter.state :=
  snd (EthereumJSAdapter.startBlock (adapter None)).

Lemma sealBlock_only_clears_marker_witness :
  EthereumJSAdapter._blockStartStateRoot open_adapter
  = Some (sm_getStateRoot (EthereumJSAdapter._stateManager (adapter None)))
  /\ EthereumJSAdapter.sealBlock open_adapter
     = (inr tt, EthereumJSAdapter.set_blockStartStateRoot open_adapter None).
Proof.
  split; [reflexivity |].
  exact (proj1 (sealBlock_only_clears_marker open_adapter _
                  [(pay alice bob 1 0, london_block)] eq_refl)).
Defined.



(** Before the rewards bob has no account; afterwards he has one, with the
    reward as its balance. *)
Example rewards_create_account :
  w_accounts (world (EthereumJSAdapter._stateManager (adapter None))) !! bob
  = None
  /\ w_accounts
       (world (EthereumJSAdapter._stateManager
                 (snd (EthereumJSAdapter.addBlockRewards
                         [(bob, 5); (carol, 2)] (adapter None))))) !! bob
     = Some (add_balance emptyAccount 5).
Proof. vm_compute. split; reflexivity. Qed.

Lemma startBlock_sealBlock_guards_witness :
  EthereumJSAdapter._blockStartStateRoot (adapter None) = None
  /\ EthereumJSAdapter.sealBlock (adapter None)
     = (inl (Error "Cannot seal a block that wasn't started"), adapter None).
Proof.
  split; [reflexivity |].
  exact (proj2 (startBlock_sealBlock_guards (adapter None)) eq_refl).
Defined.

(** C2 does not hold as stated: with no block started, [runTxInBlock] of
    the interpreted adapter returns a result for a payment of a sender who
    holds 100 ether, and [sealBlock] of the native adapter returns. *)
Lemma lifecycle_violations_counterexample :
  EthereumJSAdapter._blockStartStateRoot funded_adapter = None
  /\ (exists result this',
        EthereumJSAdapter.runTxInBlock (pay alice bob 30 0) london_block
          funded_adapter
        = (inr result, this'))
  /\ RethnetAdapter.sealBlock native_adapter = (inr tt, native_adapter).
Proof.
  split; [reflexivity |]. split; [| reflexivity].
  eexists. eexists. vm_compute. reflexivity.
Qed.

Lemma success_reason_rule_witness :
  exceptionError (execResult (message_result (Some bob) [] None)) = None
  /\ exists reason gasUsed gasRefunded logs output,
      EthereumJSAdapter.afterMessage_executionResult
        (message_result (Some bob) [] None)
      = inr (SuccessResult reason gasUsed gasRefunded logs output)
      /\ (~ EthereumJSAdapter.selfdestructed
              (message_result (Some bob) [] None) ->
          createdAddress (message_result (Some bob) [] None) <> None
          \/ returnValue (execResult (message_result (Some bob) [] None))
             <> [] ->
          reason = Return).
Proof.
  split; [reflexivity |].
  destruct (success_reason_rule (message_result (Some bob) [] None)
              (adapter None) eq_refl)
    as (reason & gasUsed & gasRefunded & logs & output & H1 & _ & H3 & _).
  exists reason, gasUsed, gasRefunded, logs, output.
  split; [exact H1 | exact H3].
Defined.

(** A node forked from network 1 at block 15 dry-runs block 12 with the
    chain id 1. *)
Lemma dryRun_chain_configuration_witness :
  EthereumJSAdapter.created (adapter (Some (1, 15)))
  /\ chainId
       (EthereumJSAdapter.dryRun_common (adapter (Some (1, 15)))
          (EthereumJSAdapter.dryRun_block (adapter (Some (1, 15)))
             london_block (default false None)))
     = Some 1.
Proof.
  assert (EthereumJSAdapter.created (adapter (Some (1, 15)))) as Hc.
  { split; discriminate. }
  split; [exact Hc |].
  refine (proj1 (proj1 (proj2 (proj2 (proj2
            (dryRun_chain_configuration (pay alice bob 30 0) london_block
               None (adapter (Some (1, 15))) Hc)))) _)).
  exists 15. split; [reflexivity | cbn; lia].
Defined.

Lemma dryRun_base_fee_witness :
  hardforkGteHardfork (EthereumJSAdapter._common (adapter None))
    (EthereumJSAdapter._selectHardfork (adapter None)
       (number (header (block_at 12 None None)))) "london" = true
  /\ baseFeePerGas
       (header (EthereumJSAdapter.dryRun_block (adapter None)
                  (block_at 12 None None) (default false None)))
     = Some 0.
Proof.
  split; [reflexivity |].
  exact (proj1 (proj2 (proj1
           (dryRun_base_fee (RL := rethnetLib) (pay alice bob 30 0)
              (block_at 12 None None)
              None (adapter None) native_adapter (pay alice bob 30 0) None)))
           eq_refl (or_introl eq_refl)).
Defined.

(** C6 does not hold as stated for the native adapter: in a Berlin block
    with base fee 7, [forceBaseFeeZero] makes the base fee of the block
    environment 0 although London is not active; and in a London block
    without base fee the base fee stays absent when it is not forced. *)
Lemma rethnet_base_fee_counterexample :
  hardforkGte (RethnetAdapter._selectHardfork native_adapter 5) "london"
  = false
  /\ baseFeePerGas (header (block_at 5 (Some 7) None)) = Some 7
  /\ bc_basefee
       (RethnetAdapter.dryRun_blockConfig (block_at 5 (Some 7) None)
          (Some true) (Some 1) None)
     = Some 0
  /\ RethnetAdapter.dryRun (pay alice bob 30 0) (block_at 5 (Some 7) None)
       (Some true) native_adapter
     = (let (r, s') :=
          rethnet_guaranteedDryRun (pay alice bob 30 0)
            (RethnetAdapter.dryRun_blockConfig (block_at 5 (Some 7) None)
               (Some true) (Some 1) None)
            (RethnetAdapter._state native_adapter) in
        (match r with
         | inl e => inl e
         | inr x => rethnetResultToRunTxResult x 0
         end, RethnetAdapter.set_state native_adapter s'))
  /\ hardforkGte (RethnetAdapter._selectHardfork native_adapter 12) "london"
     = true
  /\ bc_basefee
       (RethnetAdapter.dryRun_blockConfig (block_at 12 None None)
          None (Some 1) None)
     = None.
Proof.
  split; [reflexivity |]. split; [reflexivity |].
  split; [reflexivity |]. split; [| split; reflexivity].
  apply (rethnet_dryRun_unfold (RL := rethnetLib) (pay alice bob 30 0)
           (block_at 5 (Some 7) None) (Some true) native_adapter
           (pay alice bob 30 0) None); reflexivity.
Qed.

Lemma prevRandao_mapping_witness :
  ethereumjsTransactionToRethnet (pay alice bob 30 0)
  = inr (pay alice bob 30 0)
  /\ hardforkGte
       (RethnetAdapter._selectHardfork native_adapter
          (number (header merge_block))) HardforkName_MERGE = true
  /\ RethnetAdapter._getBlockPrevRandao native_adapter
       (number (header merge_block)) (mixHash (header merge_block))
     = inr (Some (Buffer_alloc 32 x11)).
Proof.
  split; [reflexivity |]. split; [reflexivity |].
  exact (proj1 (proj1 (prevRandao_mapping (RL := rethnetLib) native_adapter
                         (pay alice bob 30 0) merge_block None
                         (pay alice bob 30 0) eq_refl)
                 eq_refl (Buffer_alloc 32 x11) eq_refl)).
Defined.
End Scenarios.

(** * The block cycle of [EthereumJSAdapter] *)

Section BlockCycle.
Import EthereumJSAdapter.
Context {Store : Type} `{SM : StateManager Store} `{EJS : EthereumJS Store}.
Context `{Co : Collaborators}.

Local Abbreviation state := (@state Store Co).

Lemma startBlock_closed (this : state) :
  _blockStartStateRoot this = None ->
  startBlock this
  = (inr tt,
     set_blockStartStateRoot this
       (Some (sm_getStateRoot (_stateManager this)))).
Proof.
  intros Hnone. unfold startBlock, bind, get. rewrite Hnone. reflexivity.
Qed.

Lemma startBlock_open (this : state) (root : Buffer) :
  _blockStartStateRoot this = Some root ->
  startBlock this = (inl (Error "a block is already started"), this).
Proof.
  intros Hopen. unfold startBlock, bind, get. rewrite Hopen. reflexivity.
Qed.

Lemma sealBlock_closed (this : state) :
  _blockStartStateRoot this = None ->
  sealBlock this
  = (inl (Error "Cannot seal a block that wasn't started"), this).
Proof.
  intros Hnone. unfold sealBlock, bind, get. rewrite Hnone. reflexivity.
Qed.

Lemma sealBlock_open (this : state) (root : Buffer) :
  _blockStartStateRoot this = Some root ->
  sealBlock this = (inr tt, set_blockStartStateRoot this None).
Proof.
  intros Hopen. unfold sealBlock, bind, get. rewrite Hopen. reflexivity.
Qed.

Lemma revertBlock_closed (this : state) :
  _blockStartStateRoot this = None ->
  revertBlock this
  = (inl (Error "Cannot revert a block that wasn't started"), this).
Proof.
  intros Hnone. unfold revertBlock, bind, get. rewrite Hnone. reflexivity.
Qed.

Lemma revertBlock_open (this : state) (root : Buffer) :
  _blockStartStateRoot this = Some root ->
  revertBlock this
  = match sm_setStateRoot root (_stateManager this) with
    | inl e => (inl e, this)
    | inr s' =>
        (inr tt, set_blockStartStateRoot (set_stateManager this s') None)
    end.
Proof.
  intros Hopen.
  unfold revertBlock, bind, get, stateManager_setStateRoot, modify.
  rewrite Hopen. destruct (sm_setStateRoot _ _); reflexivity.
Qed.

(** X1.  At most one block is open: two [startBlock] calls in a row never
    both return.  From any state the pair throws "a block is already
    started"; when no block was open the first call opened one, on the
    current state root and with nothing else changed, and it is the second
    that throws. *)
Theorem startBlock_twice_throws (this : state) :
  fst ((startBlock ;;; startBlock) this)
  = inl (Error "a block is already started")
  /\ (_blockStartStateRoot this = None ->
      snd ((startBlock ;;; startBlock) this)
      = set_blockStartStateRoot this
          (Some (sm_getStateRoot (_stateManager this))))
  /\ (_blockStartStateRoot this <> None ->
      snd ((startBlock ;;; startBlock) this) = this).
Proof.
  unfold bind at 1 2 3.
  destruct (_blockStartStateRoot this) as [root |] eqn:Hm.
  - rewrite (startBlock_open this root Hm). cbn.
    split; [reflexivity |]. split; [discriminate | reflexivity].
  - rewrite (startBlock_closed this Hm).
    rewrite (startBlock_open _ (sm_getStateRoot (_stateManager this)))
      by reflexivity.
    cbn. split; [reflexivity |]. split; [reflexivity |]. congruence.
Qed.

(** X2.  Opening a block and sealing it at once leaves the adapter exactly
    as it was, when no block was open. *)
Theorem startBlock_sealBlock_identity (this : state) :
  _blockStartStateRoot this = None ->
  (startBlock ;;; sealBlock) this = (inr tt, this).
Proof.
  intros Hnone. unfold bind. rewrite (startBlock_closed this Hnone).
  rewrite (sealBlock_open _ (sm_getStateRoot (_stateManager this)))
    by reflexivity.
  destruct this. cbn in *. subst. reflexivity.
Qed.

(** X3.  [revertBlock] has three exits.  With no block open it throws and
    changes nothing.  With a block open, when the state manager refuses the
    stored root the exception passes and the block stays open, the adapter
    being unchanged; when it accepts, the adapter is at that store and the
    block is closed. *)
Theorem revertBlock_exits (this : state) :
  (_blockStartStateRoot this = None ->
   revertBlock this
   = (inl (Error "Cannot revert a block that wasn't started"), this))
  /\ (forall root e,
        _blockStartStateRoot this = Some root ->
        sm_setStateRoot root (_stateManager this) = inl e ->
        revertBlock this = (inl e, this))
  /\ (forall root s',
        _blockStartStateRoot this = Some root ->
        sm_setStateRoot root (_stateManager this) = inr s' ->
        revertBlock this
        = (inr tt, set_blockStartStateRoot (set_stateManager this s') None)
        /\ _stateManager (snd (revertBlock this)) = s'
        /\ _blockStartStateRoot (snd (revertBlock this)) = None).
Proof.
  split; [apply revertBlock_closed |]. split.
  - intros root e Hopen Hset. rewrite (revertBlock_open this root Hopen), Hset.
    reflexivity.
  - intros root s' Hopen Hset.
    rewrite (revertBlock_open this root Hopen), Hset. repeat split.
Qed.

(** X4.  A block is closed at most once: after a [sealBlock] a second
    [sealBlock] or a [revertBlock] throws, and after a [revertBlock] a
    [sealBlock] or a second [revertBlock] throws, from any state. *)
Theorem block_closed_once (this : state) :
  fst ((sealBlock ;;; sealBlock) this)
  = inl (Error "Cannot seal a block that wasn't started")
  /\ fst ((sealBlock ;;; revertBlock) this)
     = inl (Error (match _blockStartStateRoot this with
                   | Some _ => "Cannot revert a block that wasn't started"
                   | None => "Cannot seal a block that wasn't started"
                   end))
  /\ (exists e, fst ((revertBlock ;;; sealBlock) this) = inl e)
  /\ (exists e, fst ((revertBlock ;;; revertBlock) this) = inl e).
Proof.
  unfold bind.
  destruct (_blockStartStateRoot this) as [root |] eqn:Hm.
  - rewrite (sealBlock_open this root Hm).
    rewrite (sealBlock_closed (set_blockStartStateRoot this None))
      by reflexivity.
    rewrite (revertBlock_closed (set_blockStartStateRoot this None))
      by reflexivity.
    rewrite (revertBlock_open this root Hm).
    split; [reflexivity |]. split; [reflexivity |].
    destruct (sm_setStateRoot root (_stateManager this)) as [e | s'].
    + split; exists e; reflexivity.
    + rewrite sealBlock_closed, revertBlock_closed by reflexivity.
      split; eexists; reflexivity.
  - rewrite (sealBlock_closed this Hm), (revertBlock_closed this Hm).
    split; [reflexivity |]. split; [reflexivity |].
    split; eexists; reflexivity.
Qed.

Lemma runTxsInBlock_results (txs : list (TypedTransaction * Block))
    (this : state) :
  exists rs,
    runTxsInBlock txs this = (inr rs, set_vm this (vm_after txs (_vm this)))
    /\ length rs = length txs.
Proof.
  revert this. induction txs as [| [tx block] txs IH]; intros this.
  - exists []. split; [destruct this; reflexivity | reflexivity].
  - cbn [runTxsInBlock]. unfold bind at 1. unfold attempt.
    destruct (runTxInBlock tx block this) as [r this1] eqn:Hrun.
    assert (this1 = set_vm this
                      (snd (vm_runTx {| opt_block := block; opt_tx := tx;
                                        skipNonce := None; skipBalance := None;
                                        skipBlockGasLimitValidation := None |}
                                     (_vm this)))) as ->.
    { unfold runTxInBlock, bind, vm_runTx_ in Hrun.
      destruct (vm_runTx _ _) as [[e | [x |]] vm']; inversion Hrun;
        reflexivity. }
    destruct (IH (set_vm this
                    (snd (vm_runTx {| opt_block := block; opt_tx := tx;
                                      skipNonce := None; skipBalance := None;
                                      skipBlockGasLimitValidation := None |}
                                   (_vm this))))) as (rs & Hrs & Hlen).
    exists (r :: rs). unfold bind. rewrite Hrs. cbn.
    split; [reflexivity | congruence].
Qed.

(** X5.  The [runTxInBlock] calls of a block, whatever each of them
    returns or throws, leave the block marker and the configuration of the
    adapter alone, and there is one outcome per transaction: they neither
    open nor close a block, and the VM afterwards is the one the backend
    left.  Nothing is said of the tracers, which the listeners of the VM
    write to during a run. *)
Theorem runTxsInBlock_frame (txs : list (TypedTransaction * Block))
    (this : state) :
  exists rs,
    fst (runTxsInBlock txs this) = inr rs
    /\ length rs = length txs
    /\ (let this' := snd (runTxsInBlock txs this) in
        _blockStartStateRoot this' = _blockStartStateRoot this
        /\ same_configuration this this'
        /\ _vm this' = vm_after txs (_vm this)).
Proof.
  destruct (runTxsInBlock_results txs this) as (rs & Hrs & Hlen).
  exists rs. rewrite Hrs. cbn. unfold same_configuration. cbn.
  repeat split. exact Hlen.
Qed.
End BlockCycle.

(** * Dry runs, snapshots and rewards of [EthereumJSAdapter] *)

Section DryRunAndSnapshots.
Import EthereumJSAdapter.
Context {Store : Type} `{SM : StateManager Store} `{EJS : EthereumJS Store}.
Context `{Co : Collaborators}.

Local Abbreviation state := (@state Store Co).

(** X6.  When the state manager refuses, in the [finally] block of
    [dryRun], the root that was read on entry, its exception is what
    [dryRun] throws, also when the backend had returned a result; the
    writes of the backend stay, and the VM's chain configuration is put
    back all the same. *)
Theorem dryRun_restore_failure (tx : TypedTransaction) (b : Block)
    (f : option bool) (this : state) (e : Exn) :
  let blk := dryRun_block this b (default false f) in
  let backend :=
    vm_runTx {| opt_block := blk; opt_tx := tx; skipNonce := Some true;
                skipBalance := Some true;
                skipBlockGasLimitValidation := Some true |}
             {| vm_common := dryRun_common this blk;
                vm_stateManager := _stateManager this |} in
  sm_setStateRoot (sm_getStateRoot (_stateManager this))
    (vm_stateManager (snd backend)) = inl e ->
  fst (dryRun tx b f this) = inl e
  /\ _stateManager (snd (dryRun tx b f this)) = vm_stateManager (snd backend)
  /\ vm_common (_vm (snd (dryRun tx b f this))) = vm_common (_vm this).
Proof.
  cbn zeta. intros Hset. rewrite dryRun_unfold. cbn zeta.
  destruct (vm_runTx _ _) as [r vm']. cbn in Hset.
  unfold dryRun_exit. rewrite Hset. repeat split.
Qed.

(** X7.  Whatever the backend and the state manager do, also when the
    state manager refuses to go back to the root read on entry, [dryRun]
    puts the chain configuration of the VM back and touches neither the
    block marker nor the configuration of the adapter.  Nothing is said of
    the tracers, which the listeners of the VM write to during a run. *)
Theorem dryRun_frame (tx : TypedTransaction) (b : Block) (f : option bool)
    (this : state) :
  let this' := snd (dryRun tx b f this) in
  vm_common (_vm this') = vm_common (_vm this)
  /\ _blockStartStateRoot this' = _blockStartStateRoot this
  /\ same_configuration this this'.
Proof.
  cbn zeta. rewrite dryRun_unfold. cbn zeta.
  destruct (vm_runTx _ _) as [r vm']. unfold dryRun_exit, same_configuration.
  destruct (sm_setStateRoot _ _); cbn; repeat split.
Qed.

(** X8.  The header of the block that [dryRun] runs against differs from
    the header of the block it was given in the base fee at most, which is
    then 0; when London is active for the hardfork selected for the number
    of the block, that header has a base fee; and preparing a prepared
    block leaves its header as it is.  Nothing is said of the transactions
    of the block, which [Block.fromBlockData] makes anew. *)
Theorem dryRun_block_only_base_fee (this : state) (b : Block) (f : bool) :
  let blk := dryRun_block this b f in
  let h := header b in
  let h' := header blk in
  (number h' = number h /\ coinbase h' = coinbase h
   /\ timestamp h' = timestamp h /\ gasLimit h' = gasLimit h
   /\ gasUsed h' = gasUsed h /\ difficulty h' = difficulty h
   /\ mixHash h' = mixHash h /\ stateRoot h' = stateRoot h)
  /\ (baseFeePerGas h' = baseFeePerGas h \/ baseFeePerGas h' = Some 0)
  /\ (hardforkGteHardfork (_common this)
        (_selectHardfork this (number h)) "london" = true ->
      baseFeePerGas h' <> None)
  /\ header (dryRun_block this blk f) = h'.
Proof.
  cbn zeta. unfold dryRun_block, _isEip1559Active.
  destruct (hardforkGteHardfork (_common this)
              (_selectHardfork this (number (header b))) "london")
    eqn:Hlondon;
    destruct (baseFeePerGas (header b)) as [fee |] eqn:Hfee;
    destruct f; cbn; rewrite ?Hlondon, ?Hfee; cbn;
    rewrite ?Hlondon, ?Hfee; cbn;
    repeat split; auto; try discriminate; congruence.
Qed.

(** X9.  A snapshot can be gone back to.  With a state manager that is not
    the fork-aware one, after [makeSnapshot] and any in-block transactions,
    [restoreContext] with the snapshot returns and the state root is the
    snapshot again; [setBlockContext] with the snapshot as irregular state
    does the same, whatever the block is, and without irregular state it is
    [restoreContext] with the state root of the block.  When the state
    manager refuses a root, both throw its exception and leave the adapter
    as it was. *)
Theorem snapshot_round_trip `{!StateRootLaws Store} `{!ForkAware Store}
    (txs : list (TypedTransaction * Block)) (block : Block) (this : state) :
  instanceof_ForkStateManager = false ->
  let root := sm_getStateRoot (_stateManager this) in
  fst (bind makeSnapshot
         (fun snapshot =>
            runTxsInBlock txs ;;; restoreContext snapshot ;;; getStateRoot)
         this) = inr root
  /\ fst (bind makeSnapshot
            (fun snapshot =>
               runTxsInBlock txs ;;; setBlockContext block (Some snapshot) ;;;
               getStateRoot)
            this) = inr root
  /\ setBlockContext block None this
     = restoreContext (stateRoot (header block)) this
  /\ (forall r e,
        sm_setStateRoot r (_stateManager this) = inl e ->
        restoreContext r this = (inl e, this)
        /\ setBlockContext block (Some r) this = (inl e, this)).
Proof.
  intros Hfork root.
  assert (forall r, restoreContext r = stateManager_setStateRoot r) as Hrc.
  { intros r. unfold restoreContext. rewrite Hfork. reflexivity. }
  assert (forall o,
             setBlockContext block o
             = stateManager_setStateRoot (default (stateRoot (header block)) o))
    as Hsb.
  { intros o. unfold setBlockContext. rewrite Hfork. reflexivity. }
  assert (forall c : Buffer -> M state unit,
             (forall r, c r = stateManager_setStateRoot r) ->
             fst (bind makeSnapshot
                    (fun snapshot =>
                       runTxsInBlock txs ;;; c snapshot ;;; getStateRoot)
                    this) = inr root) as Hround.
  { intros c Hc.
    unfold bind at 1. unfold makeSnapshot, getStateRoot at 1. unfold gets.
    fold root. rewrite Hc.
    destruct (runTxsInBlock_results txs this) as (rs & Hrs & _).
    unfold bind at 1. rewrite Hrs.
    pose proof (hasRoot_vm_after txs (_vm this) root
                  (hasRoot_getStateRoot _)) as Hroot.
    destruct (hasRoot_setStateRoot _ _ Hroot) as (s' & Hset & Hget).
    unfold bind, stateManager_setStateRoot, _stateManager, getStateRoot, gets.
    cbn. rewrite Hset. cbn. rewrite Hget. reflexivity. }
  split; [| split; [| split]].
  - apply (Hround restoreContext). exact Hrc.
  - apply (Hround (fun r => setBlockContext block (Some r))).
    intros r. apply Hsb.
  - rewrite Hsb, Hrc. reflexivity.
  - intros r e Hset. rewrite Hsb, Hrc. cbn.
    unfold stateManager_setStateRoot. rewrite Hset. split; reflexivity.
Qed.
End DryRunAndSnapshots.

(** * The listeners of [EthereumJSAdapter] *)

Section Listeners.
Import EthereumJSAdapter.
Context {Store : Type} `{SM : StateManager Store} `{EJS : EthereumJS Store}.
Context `{Co : Collaborators} `{!EVMEvents}.

Local Abbreviation state := (@state Store Co).

Lemma listener_frame_refl (this : state) : listener_frame this this.
Proof.
  unfold listener_frame, tracers_only, same_configuration. repeat split; auto.
Qed.

Lemma listener_frame_trans (a b c : state) :
  listener_frame a b -> listener_frame b c -> listener_frame a c.
Proof.
  unfold listener_frame, tracers_only, same_configuration.
  intros ((? & ? & ? & ? & ? & ? & ? & ?) & ?)
         ((? & ? & ? & ? & ? & ? & ? & ?) & ?).
  repeat split; try congruence; tauto.
Qed.

Lemma keeps_ret {A} (x : A) : keeps listener_frame (ret x : M state A).
Proof. intros this. apply listener_frame_refl. Qed.

Lemma keeps_liftE {A} (r : Exn + A) :
  keeps listener_frame (liftE r : M state A).
Proof. intros this. apply listener_frame_refl. Qed.

Lemma keeps_bind {A B} (c : M state A) (k : A -> M state B) :
  keeps listener_frame c ->
  (forall x, keeps listener_frame (k x)) ->
  keeps listener_frame (bind c k).
Proof.
  intros Hc Hk this. unfold bind. specialize (Hc this).
  destruct (c this) as [[e | x] this1]; cbn in *; [exact Hc |].
  eapply listener_frame_trans; [exact Hc | apply Hk].
Qed.

Ltac frame :=
  unfold listener_frame, tracers_only, same_configuration; cbn;
  repeat split; auto; try discriminate.

Lemma keeps_on_vmTracer (f : VMTracer -> Exn + VMTracer) :
  keeps listener_frame (on_vmTracer f : M state unit).
Proof.
  intros this. unfold on_vmTracer. destruct (f _); frame.
Qed.

Lemma keeps_on_vmDebugTracer (f : VMDebugTracer -> Exn + VMDebugTracer) :
  keeps listener_frame (on_vmDebugTracer f : M state unit).
Proof.
  intros this. unfold on_vmDebugTracer.
  destruct (_vmDebugTracer this) as [d |] eqn:Hd; [| frame].
  destruct (f d); frame; rewrite Hd; discriminate.
Qed.

Lemma keeps_addAfterMessage (m : TracingMessageResult ExceptionalHalt) :
  keeps listener_frame (addAfterMessage_vmTracer m : M state unit)
  /\ keeps listener_frame (addAfterMessage_vmDebugTracer m : M state unit).
Proof.
  split; intros this.
  - unfold addAfterMessage_vmTracer.
    destruct (vmTracer_addAfterMessage _ _); frame.
  - unfold addAfterMessage_vmDebugTracer.
    destruct (_vmDebugTracer this) as [d |] eqn:Hd; [| frame].
    destruct (vmDebugTracer_addAfterMessage m d); frame; rewrite Hd;
      discriminate.
Qed.

Lemma keeps_getContractCode (a : Address) :
  keeps listener_frame (getContractCode a : M state Buffer).
Proof. intros this. apply listener_frame_refl. Qed.

(** A listener: its body runs in a [try] whose [catch] gives the exception
    to [next]. *)
Lemma listener_returns (body : M state (option Exn)) (this : state) :
  keeps listener_frame body ->
  exists o this',
    try_catch body (fun e => ret (Some e)) this = (inr o, this')
    /\ listener_frame this this'.
Proof.
  intros Hbody. unfold try_catch. specialize (Hbody this).
  destruct (body this) as [[e | x] this1]; cbn in *;
    eexists; eexists; (split; [reflexivity | exact Hbody]).
Qed.

(** X10.  For a result with an exception error the handler builds a revert
    result when the error is the EVM's revert, carrying the gas used and
    the return value, and otherwise a halt result, carrying the gas used
    and the halt reason that the [Exit] of the error gives, and no return
    value.  When the [Exit] class throws on the error, so does the
    computation of the result. *)
Theorem failure_result_rule (result : EVMResult) (err : EvmError) :
  exceptionError (execResult result) = Some err ->
  let gasUsed := executionGasUsed (execResult result) in
  (error err = ERROR_REVERT ->
   afterMessage_executionResult result
   = inr (RevertResult gasUsed (returnValue (execResult result))))
  /\ (error err <> ERROR_REVERT ->
      afterMessage_executionResult result
      = match fromEthereumJSEvmError (Some err) with
        | inl e => inl e
        | inr vmError =>
            match getRethnetExceptionalHalt vmError with
            | inl e => inl e
            | inr reason => inr (HaltResult reason gasUsed)
            end
        end)
  /\ (forall reason gasUsed' gasRefunded logs output,
        afterMessage_executionResult result
        <> inr (SuccessResult reason gasUsed' gasRefunded logs output)).
Proof.
  intros Herr gasUsed. unfold afterMessage_executionResult. rewrite Herr.
  split; [| split].
  - intros Hrev. rewrite Hrev. reflexivity.
  - intros Hne. destruct (String.eqb_spec (error err) ERROR_REVERT);
      [contradiction | reflexivity].
  - intros reason g r l o.
    destruct (String.eqb (error err) ERROR_REVERT); [discriminate |].
    destruct (fromEthereumJSEvmError (Some err)); [discriminate |].
    destruct (getRethnetExceptionalHalt _); discriminate.
Qed.

(** X11.  The order in which [_afterMessageHandler] serves the tracers.
    When the result cannot be built, no tracer is called.  The structural
    tracer is first: when it throws, the debug tracer is not called.  The
    debug tracer is called if one is attached, with the same message, and
    when it throws the structural tracer keeps what it recorded.  In each
    case the exception, if any, is what the handler hands to [next]. *)
Theorem afterMessage_dispatch (result : EVMResult) (this : state) :
  let m er :=
    {| tmr_result := er; tmr_trace_steps := [];
       tmr_trace_returnValue := returnValue (execResult result) |} in
  (forall e,
      afterMessage_executionResult result = inl e ->
      _afterMessageHandler result this = (inr (Some e), this))
  /\ (forall er e,
        afterMessage_executionResult result = inr er ->
        vmTracer_addAfterMessage (m er) (_vmTracer this) = inl e ->
        _afterMessageHandler result this = (inr (Some e), this))
  /\ (forall er t,
        afterMessage_executionResult result = inr er ->
        vmTracer_addAfterMessage (m er) (_vmTracer this) = inr t ->
        match _vmDebugTracer this with
        | None =>
            _afterMessageHandler result this
            = (inr None, set_tracers this t None)
        | Some d =>
            _afterMessageHandler result this
            = match vmDebugTracer_addAfterMessage (m er) d with
              | inl e => (inr (Some e), set_tracers this t (Some d))
              | inr d' => (inr None, set_tracers this t (Some d'))
              end
        end).
Proof.
  cbn zeta.
  unfold _afterMessageHandler, try_catch, bind, liftE, ret,
    addAfterMessage_vmTracer, addAfterMessage_vmDebugTracer.
  split; [| split].
  - intros e He. rewrite He. reflexivity.
  - intros er e Her Ht. rewrite Her, Ht. reflexivity.
  - intros er t Her Ht. rewrite Her, Ht. cbn.
    destruct (_vmDebugTracer this) as [d |] eqn:Hd; cbn; rewrite ?Hd.
    + destruct (vmDebugTracer_addAfterMessage _ d); reflexivity.
    + reflexivity.
Qed.

(** X12.  What [_beforeMessageHandler] tells the tracers about the code.
    For a message without [to] (a contract creation) the message has no
    [to], no code address and no code, and the state manager is not read.
    For a message with [to], the code is the contract code that the state
    manager has at the code address of the message, which need not be
    [to]; when the code address cannot be had, the exception goes to
    [next] and no tracer is called. *)
Theorem beforeMessage_code_lookup (message : Message) (this : state) :
  let serve m :=
    try_catch (on_vmTracer (vmTracer_addBeforeMessage m) ;;;
               on_vmDebugTracer (vmDebugTracer_addBeforeMessage m) ;;;
               ret None)
              (fun e => ret (Some e)) this in
  (message_to message = None ->
   _beforeMessageHandler message this
   = serve {| tm_message := message; tm_to := None;
              tm_codeAddress := None; tm_code := None |})
  /\ (forall to codeAddress,
        message_to message = Some to ->
        message_codeAddress message = inr codeAddress ->
        _beforeMessageHandler message this
        = serve {| tm_message := message;
                   tm_to := Some (buf to);
                   tm_codeAddress := Some (buf codeAddress);
                   tm_code :=
                     Some (sm_getContractCode codeAddress
                             (_stateManager this)) |})
  /\ (forall to e,
        message_to message = Some to ->
        message_codeAddress message = inl e ->
        _beforeMessageHandler message this = (inr (Some e), this)).
Proof.
  cbn zeta. unfold _beforeMessageHandler. split; [| split].
  - intros Hto. rewrite Hto. reflexivity.
  - intros to a Hto Ha. rewrite Hto, Ha. reflexivity.
  - intros to e Hto He. rewrite Hto, He. reflexivity.
Qed.

(** X13.  The three listeners never throw: whatever the tracers and the
    [Exit] class do, each listener returns, with the exception it caught
    as what it hands to [next]; none of them writes to the VM, the state
    manager, the block marker or the configuration; and none of them
    attaches or detaches the debug tracer. *)
Theorem listeners_never_throw (message : Message) (step : InterpreterStep)
    (result : EVMResult) (this : state) :
  (exists o this',
      _beforeMessageHandler message this = (inr o, this')
      /\ listener_frame this this')
  /\ (exists o this',
        _stepHandler step this = (inr o, this') /\ listener_frame this this')
  /\ (exists o this',
        _afterMessageHandler result this = (inr o, this')
        /\ listener_frame this this').
Proof.
  split; [| split]; apply listener_returns.
  - repeat (apply keeps_bind; [| intros ?]);
      try destruct (message_to message);
      repeat (apply keeps_bind; [| intros ?]);
      auto using keeps_ret, keeps_liftE, keeps_on_vmTracer,
        keeps_on_vmDebugTracer, keeps_getContractCode.
  - cbn zeta. repeat (apply keeps_bind; [| intros ?]);
      auto using keeps_ret, keeps_on_vmTracer, keeps_on_vmDebugTracer.
  - repeat (apply keeps_bind; [| intros ?]);
      auto using keeps_ret, keeps_liftE;
      apply keeps_addAfterMessage.
Qed.
End Listeners.

(** * Creation and rewards *)

Section CreationAndRewards.
Import EthereumJSAdapter.
Context {Store : Type} `{SM : StateManager Store} `{EJS : EthereumJS Store}.
Context `{Co : Collaborators}.

Local Abbreviation state := (@state Store Co).

(** X14.  A created adapter is fresh: no block is open, so that
    [startBlock] returns while [sealBlock] and [revertBlock] throw; no debug
    tracer is attached; the VM runs under the common the adapter was given;
    the network id, the chain id and the hardfork selector are those of
    the configuration; and the fork network id and the fork block number
    are both set when the configuration is a forked one and both unset
    otherwise.  When the fork client cannot be made, [create] throws what
    that threw. *)
Theorem create_fresh_adapter `{!NodeSetup Store} (common : Common)
    (config : NodeConfig ForkConfig GenesisAccounts)
    (selectHardfork : Z -> string) :
  (forall this,
      create common config selectHardfork = inr this ->
      _blockStartStateRoot this = None
      /\ _vmDebugTracer this = None
      /\ vm_common (_vm this) = common /\ _common this = common
      /\ _configNetworkId this = cfg_networkId config
      /\ _configChainId this = cfg_chainId config
      /\ _selectHardfork this = selectHardfork
      /\ fst (startBlock this) = inr tt
      /\ (exists e, fst (sealBlock this) = inl e)
      /\ (exists e, fst (revertBlock this) = inl e)
      /\ (cfg_forkConfig config <> None ->
          _forkNetworkId this <> None /\ _forkBlockNumber this <> None)
      /\ (cfg_forkConfig config = None ->
          _forkNetworkId this = None /\ _forkBlockNumber this = None))
  /\ (forall forkConfig e,
        cfg_forkConfig config = Some forkConfig ->
        makeForkClient forkConfig (cfg_forkCachePath config) = inl e ->
        create common config selectHardfork = inl e).
Proof.
  split.
  - intros this Hcreate.
    assert (_blockStartStateRoot this = None) as Hnone.
    { unfold create in Hcreate.
      destruct (cfg_forkConfig config) as [fc |].
      - destruct (makeForkClient _ _) as [e | [net n]]; [discriminate |].
        destruct (ForkStateManager_new _ _ _); [discriminate |].
        injection Hcreate as <-. reflexivity.
      - destruct (DefaultStateManager_new _); [discriminate |].
        injection Hcreate as <-. reflexivity. }
    rewrite (startBlock_closed this Hnone), (sealBlock_closed this Hnone),
      (revertBlock_closed this Hnone).
    unfold create in Hcreate.
    destruct (cfg_forkConfig config) as [fc |].
    + destruct (makeForkClient _ _) as [e | [net n]]; [discriminate |].
      destruct (ForkStateManager_new _ _ _); [discriminate |].
      injection Hcreate as <-. cbn.
      repeat split; try discriminate; try congruence; eexists; reflexivity.
    + destruct (DefaultStateManager_new _); [discriminate |].
      injection Hcreate as <-. cbn.
      repeat split; try discriminate; try congruence; eexists; reflexivity.
  - intros fc e Hfc He. unfold create. rewrite Hfc, He. reflexivity.
Qed.

Lemma total_reward_perm (a : Address) (l l' : list (Address * Z)) :
  l ≡ₚ l' -> total_reward a l = total_reward a l'.
Proof.
  induction 1 as [| [b x] l l' _ IH | [b x] [c y] l | l l' l'' _ IH1 _ IH2];
    cbn; lia.
Qed.

Lemma addBlockRewards_app (l1 l2 : list (Address * Z)) (this : state) :
  addBlockRewards (l1 ++ l2) this
  = (addBlockRewards l1 ;;; addBlockRewards l2) this.
Proof.
  revert this. induction l1 as [| [b x] l1 IH]; intros this.
  - reflexivity.
  - cbn [app]. rewrite addBlockRewards_cons. unfold bind at 1.
    rewrite addBlockRewards_cons.
    destruct (sm_putAccount _ _ _) as [e | s']; [reflexivity |].
    rewrite IH. reflexivity.
Qed.

Lemma addBlockRewards_keeps (rewards : list (Address * Z)) (this : state) :
  _blockStartStateRoot (snd (addBlockRewards rewards this))
  = _blockStartStateRoot this
  /\ vm_common (_vm (snd (addBlockRewards rewards this)))
     = vm_common (_vm this)
  /\ _vmTracer (snd (addBlockRewards rewards this)) = _vmTracer this
  /\ _vmDebugTracer (snd (addBlockRewards rewards this))
     = _vmDebugTracer this
  /\ same_configuration this (snd (addBlockRewards rewards this)).
Proof.
  revert this. induction rewards as [| [b x] rewards IH]; intros this.
  - unfold same_configuration. cbn. repeat split.
  - rewrite addBlockRewards_cons.
    destruct (sm_putAccount _ _ _) as [e | s'].
    + unfold same_configuration. cbn. repeat split.
    + destruct (IH (set_stateManager this s')) as (H2 & H3 & H4 & H5 & H6).
      unfold same_configuration in *. cbn in *.
      rewrite H2, H3, H4, H5. repeat split; apply H6.
Qed.

(** X15.  How rewards compose.  The rewards of two lists given in one call
    do what two calls in a row do, also when the state manager refuses one
    of the accounts.  Whether it returns or throws, [addBlockRewards]
    changes neither the block marker nor the configuration, the tracers or
    the VM's common.  When the state manager refuses the account of a
    reward, the call throws what the state manager threw, with the rewards
    before that one written and those after it not.  And on a store whose
    accounts are valid, with a state manager that accepts valid accounts
    and reads back what was put, the order of rewards that are not
    negative does not matter: two lists that are permutations of each
    other both return and leave every address with the same account. *)
Theorem addBlockRewards_compose (l1 l2 : list (Address * Z)) (this : state) :
  addBlockRewards (l1 ++ l2) this
  = (addBlockRewards l1 ;;; addBlockRewards l2) this
  /\ (let this' := snd (addBlockRewards l1 this) in
      _blockStartStateRoot this' = _blockStartStateRoot this
      /\ vm_common (_vm this') = vm_common (_vm this)
      /\ _vmTracer this' = _vmTracer this
      /\ _vmDebugTracer this' = _vmDebugTracer this
      /\ same_configuration this this')
  /\ (forall (b : Address) (x : Z) (e : Exn),
        let this' := snd (addBlockRewards l1 this) in
        fst (addBlockRewards l1 this) = inr tt ->
        sm_putAccount b
          (add_balance (sm_getAccount b (_stateManager this')) x)
          (_stateManager this') = inl e ->
        addBlockRewards (l1 ++ (b, x) :: l2) this = (inl e, this'))
  /\ (forall `{!AccountLaws Store} (a : Address),
        Forall (fun ar : Address * Z => 0 <= ar.2) l1 ->
        valid_accounts (_stateManager this) ->
        l1 ≡ₚ l2 ->
        fst (addBlockRewards l1 this) = inr tt
        /\ fst (addBlockRewards l2 this) = inr tt
        /\ sm_getAccount a (_stateManager (snd (addBlockRewards l1 this)))
           = sm_getAccount a (_stateManager (snd (addBlockRewards l2 this)))).
Proof.
  split; [| split; [| split]].
  - apply addBlockRewards_app.
  - apply addBlockRewards_keeps.
  - intros b x e this' Hok Hput. subst this'.
    rewrite addBlockRewards_app. unfold bind.
    destruct (addBlockRewards l1 this) as [r this1].
    cbn [fst snd] in Hok, Hput |- *.
    subst r. rewrite addBlockRewards_cons, Hput. reflexivity.
  - intros Hlaws a Hpos Hvalid Hperm.
    assert (Forall (fun ar : Address * Z => 0 <= ar.2) l2) as Hpos2.
    { rewrite <- Hperm. exact Hpos. }
    destruct (addBlockRewards_valid l1 this Hpos Hvalid) as [Hok1 Hacc1].
    destruct (addBlockRewards_valid l2 this Hpos2 Hvalid) as [Hok2 Hacc2].
    split; [exact Hok1 |]. split; [exact Hok2 |].
    rewrite Hacc1, Hacc2, (total_reward_perm a l1 l2 Hperm). reflexivity.
Qed.
End CreationAndRewards.

(** * Creation and block environment of [RethnetAdapter] *)

Section RethnetEnvironment.
Import RethnetAdapter.
Context {RState : Type} `{Co : Collaborators} `{RL : RethnetLib RState}.

Local Abbreviation state := (@state RState).

(** X16.  The difficulty of the block environment is the difficulty of the
    block capped at 2^32 - 1: it never exceeds that bound, a difficulty
    within the bound (a negative one too) and an absent one pass as they
    are, and capping twice is capping once. *)
Theorem getBlockEnvDifficulty_clamp (difficulty : option Z) :
  _getBlockEnvDifficulty difficulty = Z.min (2 ^ 32 - 1) <$> difficulty
  /\ (forall d, _getBlockEnvDifficulty difficulty = Some d -> d <= 4294967295)
  /\ (forall d,
        difficulty = Some d -> d <= 4294967295 ->
        _getBlockEnvDifficulty difficulty = Some d)
  /\ (difficulty = None -> _getBlockEnvDifficulty difficulty = None)
  /\ _getBlockEnvDifficulty (_getBlockEnvDifficulty difficulty)
     = _getBlockEnvDifficulty difficulty.
Proof.
  assert (forall o, _getBlockEnvDifficulty o = Z.min (2 ^ 32 - 1) <$> o)
    as Hmin.
  { intros [d |]; [| reflexivity]. unfold _getBlockEnvDifficulty. cbn.
    change (2 ^ 32 - 1) with 4294967295.
    destruct (Z.gtb_spec d 4294967295); f_equal; lia. }
  split; [apply Hmin |]. rewrite !Hmin.
  change (2 ^ 32 - 1) with 4294967295.
  destruct difficulty as [d |]; cbn.
  - repeat split.
    + intros d' [= <-]. lia.
    + intros d' [= <-] Hle. f_equal. lia.
    + discriminate.
    + f_equal. lia.
  - repeat split; discriminate.
Qed.

(** X17.  The block environment that the backend gets from [dryRun] and
    from [runTxInBlock] has a difficulty of at most 2^32 - 1; the one of
    [dryRun] has the number, the timestamp and the gas limit of the block
    and the bytes of its coinbase. *)
Theorem backend_block_environment (tx : TypedTransaction) (b : Block)
    (f : option bool) (this : state) (rtx : RethnetTx)
    (prevRandao : option Buffer) :
  ethereumjsTransactionToRethnet tx = inr rtx ->
  _getBlockPrevRandao this (number (header b)) (mixHash (header b))
  = inr prevRandao ->
  exists env difficulty,
    dryRun tx b f this
    = (let (r, s') := rethnet_guaranteedDryRun rtx env (_state this) in
       (match r with
        | inl e => inl e
        | inr x => rethnetResultToRunTxResult x (gasUsed (header b))
        end, set_state this s'))
    /\ runTxInBlock tx b this
       = (let (r, s') :=
            rethnet_run rtx
              (ethereumjsHeaderDataToRethnet (header b) difficulty prevRandao)
              (_state this) in
          (match r with
           | inl e => inl e
           | inr x => rethnetResultToRunTxResult x (gasUsed (header b))
           end, set_state this s'))
    /\ bc_difficulty env = difficulty
    /\ (forall d, difficulty = Some d -> d <= 4294967295)
    /\ bc_number env = number (header b)
    /\ bc_timestamp env = timestamp (header b)
    /\ bc_gasLimit env = gasLimit (header b)
    /\ bc_coinbase env = buf (coinbase (header b))
    /\ bc_prevrandao env = prevRandao.
Proof.
  intros Htx Hpr.
  exists (dryRun_blockConfig b f
            (_getBlockEnvDifficulty (difficulty (header b))) prevRandao).
  exists (_getBlockEnvDifficulty (difficulty (header b))).
  split; [apply (rethnet_dryRun_unfold _ _ _ _ _ _ Htx Hpr) |].
  split; [apply (rethnet_runTxInBlock_unfold _ _ _ _ _ Htx Hpr) |].
  split; [reflexivity |]. split; [| repeat split].
  intros d Hd. unfold _getBlockEnvDifficulty in Hd.
  change (2 ^ 32 - 1) with 4294967295 in Hd.
  destruct (difficulty (header b)) as [d0 |]; [| discriminate].
  destruct (Z.gtb_spec d0 4294967295); injection Hd as <-; lia.
Qed.

(** X18.  [create] refuses a forked configuration, whatever the libraries
    would do.  For any other configuration, when the libraries make the
    state and the [Rethnet] object, the adapter holds that state, the
    selector and the common it was given, and [Rethnet] was made with the
    chain id of the configuration, the block gas limit and EIP-3607 checks
    disabled, and a contract code size limit of 2^64 - 1 exactly when
    [allowUnlimitedContractSize] is true, and none otherwise. *)
Theorem create_refuses_fork `{!RethnetSetup RState} {ForkConfig : Type}
    (config : NodeConfig ForkConfig RethnetGenesisAccounts)
    (selectHardfork : Z -> string) (getBlockHash : GetBlockHash)
    (common : Common) :
  (cfg_forkConfig config <> None ->
   create config selectHardfork getBlockHash common
   = inl (Error "Forking is not supported for Rethnet yet"))
  /\ (forall this,
        create config selectHardfork getBlockHash common = inr this ->
        cfg_forkConfig config = None
        /\ _selectHardfork this = selectHardfork
        /\ _common this = common
        /\ exists s0 specId options,
            RethnetStateManager_withGenesisAccounts
              (cfg_genesisAccounts config) = inr s0
            /\ ethereumsjsHardforkToRethnet (cfg_hardfork config) = inr specId
            /\ Rethnet_new getBlockHash s0 options = inr (_state this)
            /\ ro_chainId options = cfg_chainId config
            /\ ro_specId options = specId
            /\ ro_disableBlockGasLimit options = Some true
            /\ ro_disableEip3607 options = Some true
            /\ (cfg_allowUnlimitedContractSize config = Some true ->
                ro_limitContractCodeSize options = Some 18446744073709551615)
            /\ (cfg_allowUnlimitedContractSize config <> Some true ->
                ro_limitContractCodeSize options = None)).
Proof.
  unfold create. split.
  - intros Hfork. destruct (cfg_forkConfig config); [reflexivity | congruence].
  - intros this Hcreate.
    destruct (cfg_forkConfig config); [discriminate |].
    destruct (RethnetStateManager_withGenesisAccounts _) as [e | s0] eqn:Hs0;
      [discriminate |].
    destruct (ethereumsjsHardforkToRethnet _) as [e | specId] eqn:Hspec;
      [discriminate |].
    destruct (Rethnet_new _ _ _) as [e | s1] eqn:Hnew; [discriminate |].
    injection Hcreate as <-. cbn.
    split; [reflexivity |]. split; [reflexivity |]. split; [reflexivity |].
    exists s0, specId. eexists. split; [reflexivity |].
    split; [reflexivity |]. split; [exact Hnew |]. cbn.
    repeat split.
    + intros H. rewrite bool_decide_eq_true_2 by exact H. reflexivity.
    + intros H. rewrite bool_decide_eq_false_2 by exact H. reflexivity.
Qed.
End RethnetEnvironment.

(** * More of the reference backend at work *)

Section MoreScenarios.
Import Reference.

Lemma startBlock_twice_throws_witness :
  EthereumJSAdapter._blockStartStateRoot (adapter None) = None
  /\ snd ((EthereumJSAdapter.startBlock ;;; EthereumJSAdapter.startBlock)
            (adapter None))
     = EthereumJSAdapter.set_blockStartStateRoot (adapter None)
         (Some (sm_getStateRoot
                  (EthereumJSAdapter._stateManager (adapter None)))).
Proof.
  split; [reflexivity |].
  exact (proj1 (proj2 (startBlock_twice_throws (adapter None))) eq_refl).
Defined.

Lemma startBlock_sealBlock_identity_witness :
  EthereumJSAdapter._blockStartStateRoot (adapter None) = None
  /\ (EthereumJSAdapter.startBlock ;;; EthereumJSAdapter.sealBlock)
       (adapter None)
     = (inr tt, adapter None).
Proof.
  split; [reflexivity |].
  exact (startBlock_sealBlock_identity (adapter None) eq_refl).
Defined.

(** An adapter whose open block has a start root that the state manager
    does not know. *)
Definition lost_block : EthereumJSAdapter.state :=
  EthereumJSAdapter.set_blockStartStateRoot (adapter None) (Some [x00]).

Lemma revertBlock_exits_witness :
  EthereumJSAdapter._blockStartStateRoot lost_block = Some [x00]
  /\ sm_setStateRoot [x00] (EthereumJSAdapter._stateManager lost_block)
     = inl (Error "State trie does not contain state root")
  /\ EthereumJSAdapter.revertBlock lost_block
     = (inl (Error "State trie does not contain state root"), lost_block).
Proof.
  split; [reflexivity |]. split; [reflexivity |].
  exact (proj1 (proj2 (revertBlock_exits lost_block)) [x00]
           (Error "State trie does not contain state root")
           eq_refl eq_refl).
Defined.

(** With a state manager that keeps no archive, the root of the genesis
    state is gone once the payment is made, and the dry run throws. *)
Lemma dryRun_restore_failure_witness :
  fst (EthereumJSAdapter.dryRun (SM := pruningStateManager)
         (pay alice bob 30 0) london_block None (adapter None))
  = inl (Error "State trie does not contain state root").
Proof.
  refine (proj1 (dryRun_restore_failure (SM := pruningStateManager)
                   (pay alice bob 30 0) london_block None (adapter None)
                   (Error "State trie does not contain state root") _)).
  vm_compute. reflexivity.
Defined.

Lemma dryRun_block_only_base_fee_witness :
  hardforkGteHardfork (EthereumJSAdapter._common (adapter None))
    (EthereumJSAdapter._selectHardfork (adapter None)
       (number (header (block_at 12 None None)))) "london" = true
  /\ baseFeePerGas
       (header (EthereumJSAdapter.dryRun_block (adapter None)
                  (block_at 12 None None) false)) <> None.
Proof.
  split; [reflexivity |].
  exact (proj1 (proj2 (proj2 (dryRun_block_only_base_fee (adapter None)
                                (block_at 12 None None) false))) eq_refl).
Defined.

Lemma snapshot_round_trip_witness :
  instanceof_ForkStateManager = false
  /\ fst (bind EthereumJSAdapter.makeSnapshot
            (fun snapshot =>
               EthereumJSAdapter.runTxsInBlock
                 [(pay alice bob 1 0, london_block)] ;;;
               EthereumJSAdapter.restoreContext snapshot ;;;
               EthereumJSAdapter.getStateRoot)
            (adapter None))
     = inr (sm_getStateRoot (EthereumJSAdapter._stateManager (adapter None))).
Proof.
  split; [reflexivity |].
  exact (proj1 (snapshot_round_trip [(pay alice bob 1 0, london_block)]
                  london_block (adapter None) eq_refl)).
Defined.

(** A message that reverted with two bytes of return value, and one that
    ran out of gas. *)
Definition failed_result (err : string) (ret : Buffer) : EVMResult :=
  {| createdAddress := None;
     execResult :=
       {| exceptionError := Some {| error := err |};
          executionGasUsed := 30000; returnValue := ret;
          gasRefund := None; selfdestruct := None; logs := None |} |}.

Lemma failure_result_rule_witness :
  exceptionError (execResult (failed_result "revert" [x08; xc3]))
  = Some {| error := "revert" |}
  /\ EthereumJSAdapter.afterMessage_executionResult
       (failed_result "revert" [x08; xc3])
     = inr (RevertResult 30000 [x08; xc3]).
Proof.
  split; [reflexivity |].
  exact (proj1 (failure_result_rule (failed_result "revert" [x08; xc3])
                  {| error := "revert" |} eq_refl) eq_refl).
Defined.

Lemma afterMessage_dispatch_witness :
  EthereumJSAdapter.afterMessage_executionResult
    (failed_result "out of gas" [])
  = inr (HaltResult "out of gas" 30000)
  /\ EthereumJSAdapter._afterMessageHandler (failed_result "out of gas" [])
       (adapter None)
     = (inr None,
        EthereumJSAdapter.set_tracers (adapter None)
          [{| tmr_result := HaltResult "out of gas" 30000;
              tmr_trace_steps := []; tmr_trace_returnValue := [] |}]
          None).
Proof.
  split; [reflexivity |].
  exact (proj2 (proj2 (afterMessage_dispatch (failed_result "out of gas" [])
                         (adapter None)))
           (HaltResult "out of gas" 30000) _ eq_refl eq_refl).
Defined.

(** A delegate call: the message goes to bob and runs the code of carol. *)
Definition delegate_call : Msg :=
  {| m_to := Some bob; m_codeAddress := Some carol; m_data := [] |}.

Lemma beforeMessage_code_lookup_witness :
  message_to delegate_call = Some bob
  /\ message_codeAddress delegate_call = inr carol
  /\ EthereumJSAdapter._beforeMessageHandler delegate_call (adapter None)
     = try_catch
         (EthereumJSAdapter.on_vmTracer
            (vmTracer_addBeforeMessage
               {| tm_message := delegate_call; tm_to := Some (buf bob);
                  tm_codeAddress := Some (buf carol);
                  tm_code :=
                    Some (sm_getContractCode carol
                            (EthereumJSAdapter._stateManager
                               (adapter None))) |}) ;;;
          EthereumJSAdapter.on_vmDebugTracer
            (vmDebugTracer_addBeforeMessage
               {| tm_message := delegate_call; tm_to := Some (buf bob);
                  tm_codeAddress := Some (buf carol);
                  tm_code :=
                    Some (sm_getContractCode carol
                            (EthereumJSAdapter._stateManager
                               (adapter None))) |}) ;;;
          ret None)
         (fun e => ret (Some e)) (adapter None).
Proof.
  split; [reflexivity |]. split; [reflexivity |].
  exact (proj1 (proj2 (beforeMessage_code_lookup delegate_call
                         (adapter None))) bob carol eq_refl eq_refl).
Defined.

Lemma create_fresh_adapter_witness :
  EthereumJSAdapter.create hardhat_common (config None) selector
  = inr (adapter None)
  /\ fst (EthereumJSAdapter.startBlock (adapter None)) = inr tt.
Proof.
  split; [reflexivity |].
  destruct (proj1 (create_fresh_adapter (NodeSetup0 := nodeSetup)
                     hardhat_common (config None) selector)
              (adapter None) eq_refl)
    as (_ & _ & _ & _ & _ & _ & _ & H & _).
  exact H.
Defined.

Lemma addBlockRewards_compose_witness :
  (Forall (fun ar : Address * Z => 0 <= ar.2) [(bob, 5); (carol, 2)]
   /\ EthereumJSAdapter.valid_accounts
        (EthereumJSAdapter._stateManager (adapter None))
   /\ [(bob, 5); (carol, 2)] ≡ₚ [(carol, 2); (bob, 5)]
   /\ sm_getAccount bob
        (EthereumJSAdapter._stateManager
           (snd (EthereumJSAdapter.addBlockRewards [(bob, 5); (carol, 2)]
                   (adapter None))))
      = sm_getAccount bob
          (EthereumJSAdapter._stateManager
             (snd (EthereumJSAdapter.addBlockRewards [(carol, 2); (bob, 5)]
                     (adapter None)))))
  /\ EthereumJSAdapter.addBlockRewards
       ([(bob, 5); (carol, 2)] ++ (bob, -6) :: [(carol, 2); (bob, 5)])
       (adapter None)
     = (inl (Error "Cannot store an account with a negative nonce or balance"),
        snd (EthereumJSAdapter.addBlockRewards [(bob, 5); (carol, 2)]
               (adapter None))).
Proof.
  assert (Forall (fun ar : Address * Z => 0 <= ar.2) [(bob, 5); (carol, 2)])
    as Hpos.
  { repeat constructor; cbn; lia. }
  assert (EthereumJSAdapter.valid_accounts
            (EthereumJSAdapter._stateManager (adapter None))) as Hvalid.
  { apply (genesis_valid [(alice, 100)]). repeat constructor; cbn; lia. }
  assert ([(bob, 5); (carol, 2)] ≡ₚ [(carol, 2); (bob, 5)]) as Hperm
    by apply perm_swap.
  pose proof (addBlockRewards_compose [(bob, 5); (carol, 2)]
                [(carol, 2); (bob, 5)] (adapter None)) as H.
  split.
  - split; [exact Hpos |]. split; [exact Hvalid |]. split; [exact Hperm |].
    exact (proj2 (proj2 (proj2 (proj2 (proj2 H)) _ bob Hpos Hvalid Hperm))).
  - exact (proj1 (proj2 (proj2 H)) bob (-6)
             (Error "Cannot store an account with a negative nonce or balance")
             eq_refl eq_refl).
Defined.

Lemma getBlockEnvDifficulty_clamp_witness :
  RethnetAdapter._getBlockEnvDifficulty (Some (2 ^ 40)) = Some 4294967295
  /\ 4294967295 <= 4294967295.
Proof.
  split; [reflexivity |].
  exact (proj1 (proj2 (getBlockEnvDifficulty_clamp (Some (2 ^ 40))))
           4294967295 eq_refl).
Defined.

Lemma backend_block_environment_witness :
  ethereumjsTransactionToRethnet (pay alice bob 30 0)
  = inr (pay alice bob 30 0)
  /\ RethnetAdapter._getBlockPrevRandao native_adapter
       (number (header london_block)) (mixHash (header london_block))
     = inr None
  /\ exists env difficulty,
      RethnetAdapter.dryRun (pay alice bob 30 0) london_block None
        native_adapter
      = (let (r, s') :=
           rethnet_guaranteedDryRun (pay alice bob 30 0) env
             (RethnetAdapter._state native_adapter) in
         (match r with
          | inl e => inl e
          | inr x =>
              rethnetResultToRunTxResult x (gasUsed (header london_block))
          end, RethnetAdapter.set_state native_adapter s'))
      /\ bc_difficulty env = difficulty
      /\ (forall d, difficulty = Some d -> d <= 4294967295).
Proof.
  split; [reflexivity |]. split; [reflexivity |].
  destruct (backend_block_environment (RL := rethnetLib)
              (pay alice bob 30 0) london_block None native_adapter
              (pay alice bob 30 0) None eq_refl eq_refl)
    as (env & difficulty & H1 & _ & H3 & H4 & _).
  exists env, difficulty. split; [exact H1 |]. split; [exact H3 | exact H4].
Defined.

Lemma create_refuses_fork_witness :
  cfg_forkConfig (config (Some (1, 15))) <> None
  /\ RethnetAdapter.create (config (Some (1, 15))) selector
       (fun _ : Z => Buffer_alloc 32 x00) hardhat_common
     = inl (Error "Forking is not supported for Rethnet yet").
Proof.
  assert (cfg_forkConfig (config (Some (1, 15))) <> None) as Hfork
    by discriminate.
  split; [exact Hfork |].
  exact (proj1 (create_refuses_fork (config (Some (1, 15))) selector
                  (fun _ : Z => Buffer_alloc 32 x00) hardhat_common) Hfork).
Defined.

(** An adapter of the native backend can be created for a configuration
    that is not forked. *)
Example create_native_adapter :
  RethnetAdapter.create (config None) selector
    (fun _ : Z => Buffer_alloc 32 x00) hardhat_common
  = inr native_adapter.
Proof. reflexivity. Qed.
End MoreScenarios.
